(** * n8n-mcp-server: the workflow-graph synthesis core

    A shallow embedding of the pure helpers of the RAG tool handlers

      - [src/tools/rag/generate-workflow.ts]  (module [GenerateWorkflow]),
      - the insights handler [GetInsightsHandler]  (module [GetInsights]),
      - the complete-workflow generator  (module [WorkflowGenerator]),

    followed by the properties established about them.

    Conventions of the embedding.

    - A JavaScript string is a [string]: each [ascii] stands for one UTF-16
      code unit in the range U+0000..U+00FF.  All literals of the program
      lie in that range; [toLowerCase], [trim] and [includes] are the
      ECMAScript operations restricted to it.
    - A JavaScript number that counts things is a [nat]; a coordinate is a
      [Z].  A template literal prints it in decimal ([pretty]).
    - An optional field ([x?: T], or one read through [?.] / [|| default])
      is an [option].
    - An object literal used as a lookup table is a [gmap string string]
      together with the members it inherits from [Object.prototype]
      ([lookupProperty]).
    - [forEach] over an array with a closure that mutates locals is a left
      fold ([foldl]) over an explicit state record. *)

From Stdlib Require Import Ascii.
From Stdlib Require String.
From stdpp Require Import gmap strings list fin_maps pretty.

(** ** JavaScript primitives used by the handlers *)

Module Js.

(** The double-quote character, for the template literals that contain it. *)
Definition dquote : string := String "034"%char "".

(** Line feed, the only line terminator of the template literals. *)
Definition nl : string := String "010"%char "".

(** [String.prototype.toLowerCase] on one code unit of U+0000..U+00FF:
    A-Z and the Latin-1 capitals U+00C0..U+00DE (without the
    multiplication sign U+00D7) move up by 32. *)
Definition lowerUnit (c : ascii) : ascii :=
  let n := N_of_ascii c in
  if ((65 <=? n) && (n <=? 90))%N
     || ((192 <=? n) && (n <=? 222) && negb (n =? 215))%N
  then ascii_of_N (n + 32)
  else c.

Fixpoint toLowerCase (s : string) : string :=
  match s with
  | EmptyString => EmptyString
  | String c s' => String (lowerUnit c) (toLowerCase s')
  end.

(** [String.prototype.includes]: [sub] occurs in [s] as a substring. *)
Fixpoint includes (s sub : string) : bool :=
  String.prefix sub s
  || match s with
     | EmptyString => false
     | String _ s' => includes s' sub
     end.

(** [Array.prototype.includes] on an array of strings. *)
Definition arrayIncludes (l : list string) (x : string) : bool :=
  bool_decide (x ∈ l).

(** [Array.prototype.join]. *)
Fixpoint join (sep : string) (l : list string) : string :=
  match l with
  | [] => ""
  | [x] => x
  | x :: l' => x +:+ sep +:+ join sep l'
  end.

(** [String.prototype.substring(0, n)]. *)
Definition substring0 (n : nat) (s : string) : string :=
  String.substring 0 n s.

(** White space and line terminators of U+0000..U+00FF, as stripped by
    [String.prototype.trim]: TAB, LF, VT, FF, CR, SP and NBSP. *)
Definition isWhiteSpace (c : ascii) : bool :=
  let n := N_of_ascii c in
  (((9 <=? n) && (n <=? 13)) || (n =? 32) || (n =? 160))%N.

Fixpoint trimStart (s : string) : string :=
  match s with
  | EmptyString => EmptyString
  | String c s' => if isWhiteSpace c then trimStart s' else s
  end.

Fixpoint trimEnd (s : string) : string :=
  match s with
  | EmptyString => EmptyString
  | String c s' =>
      match trimEnd s' with
      | EmptyString => if isWhiteSpace c then EmptyString else String c EmptyString
      | t => String c t
      end
  end.

Definition trim (s : string) : string := trimEnd (trimStart s).

(** JSON payloads that the handlers only pass along. *)
#[local] Set Warnings "-register-all".
Inductive Json : Type :=
| JNull
| JBool (b : bool)
| JNumber (z : Z)
| JString (s : string)
| JArray (items : list Json)
| JObject (fields : list (string * Json)).

Definition emptyObject : Json := JObject [].

(** [ToBoolean] on a JSON payload. *)
Definition jsonTruthy (j : Json) : bool :=
  match j with
  | JNull => false
  | JBool b => b
  | JNumber z => negb (z =? 0)%Z
  | JString s => negb (String.eqb s "")
  | JArray _ | JObject _ => true
  end.

(** The values a table lookup [table[key]] can produce. *)
Inductive Value : Type :=
| VUndefined
| VString (s : string)
| VInherited (member : string).
    (* the function or object stored at [Object.prototype[member]] *)

(** [ToBoolean]: [undefined] and the empty string are falsy, functions and
    objects are truthy. *)
Definition truthy (v : Value) : bool :=
  match v with
  | VUndefined => false
  | VString s => negb (String.eqb s "")
  | VInherited _ => true
  end.

(** [a || b]. *)
Definition orElse (a b : Value) : Value := if truthy a then a else b.

(** The property names of [Object.prototype]; an object literal inherits
    every one of them. *)
Definition objectPrototypeMembers : list string :=
  [ "constructor"; "__defineGetter__"; "__defineSetter__"; "hasOwnProperty";
    "__lookupGetter__"; "__lookupSetter__"; "isPrototypeOf";
    "propertyIsEnumerable"; "toString"; "valueOf"; "__proto__";
    "toLocaleString" ].

(** [table[key]] for an object literal [table] with string values: own
    properties first, then the prototype chain, else [undefined]. *)
Definition lookupProperty (table : gmap string string) (key : string) : Value :=
  match table !! key with
  | Some v => VString v
  | None =>
      if bool_decide (key ∈ objectPrototypeMembers)
      then VInherited key
      else VUndefined
  end.

End Js.

(** ** [generate-workflow.ts]: [GenerateWorkflowHandler] *)

Module GenerateWorkflow.
Import Js.

(** [GenerateWorkflowArgs.requirements], as far as the builder reads it. *)
Record Requirements : Type := {
  trigger : option string;
  integrations : option (list string)
}.

(** One element of [context.suggested_nodes]. *)
Record SuggestedNode : Type := {
  suggested_type : option string;
  suggested_name : string;
  suggested_parameters : option Json
}.

(** The generation context returned by the RAG client. *)
Record Context : Type := {
  patterns : option (list string);
  suggested_nodes : option (list SuggestedNode)
}.

(** A node of the generated structure. *)
Record Node : Type := {
  id : string;
  type : Value;
  name : string;
  parameters : Json;
  position : Z * Z
}.

(** [{ node: ..., type: 'main', index: 0 }] *)
Record Edge : Type := {
  edge_node : string;
  edge_type : string;
  edge_index : Z
}.

(** [{ main: [[ ... ]] }], the value stored under a source id. *)
Record Outgoing : Type := { main : list (list Edge) }.

Record Settings : Type := { executionOrder : string }.

Record Workflow : Type := {
  nodes : list Node;
  connections : gmap string Outgoing;
  settings : Settings
}.

(** [inferTrigger] *)
Definition inferTrigger (context : Context) : string :=
  let patterns := default [] (patterns context) in
  if arrayIncludes patterns "microservice" then "webhook"
  else if arrayIncludes patterns "scheduled" then "schedule"
  else "manual".

Definition triggerMap : gmap string string :=
  list_to_map
    [ ("webhook", "n8n-nodes-base.webhook");
      ("schedule", "n8n-nodes-base.scheduleTrigger");
      ("manual", "n8n-nodes-base.manualTrigger");
      ("chat", "@n8n/n8n-nodes-langchain.chatTrigger") ].

(** [getTriggerNodeType]: [triggerMap[trigger] || 'n8n-nodes-base.manualTrigger'] *)
Definition getTriggerNodeType (trigger : string) : Value :=
  orElse (lookupProperty triggerMap trigger)
         (VString "n8n-nodes-base.manualTrigger").

Definition integrationMap : gmap string string :=
  list_to_map
    [ ("slack", "n8n-nodes-base.slack");
      ("telegram", "n8n-nodes-base.telegram");
      ("email", "n8n-nodes-base.emailSend");
      ("openai", "@n8n/n8n-nodes-langchain.lmChatOpenAi");
      ("supabase", "@n8n/n8n-nodes-langchain.supabaseVectorStore");
      ("http", "n8n-nodes-base.httpRequest") ].

(** [getIntegrationNodeType]:
    [integrationMap[integration.toLowerCase()] || 'n8n-nodes-base.httpRequest'] *)
Definition getIntegrationNodeType (integration : string) : Value :=
  orElse (lookupProperty integrationMap (toLowerCase integration))
         (VString "n8n-nodes-base.httpRequest").

(** The locals of [generateWorkflowStructure] that its closures mutate. *)
Record Builder : Type := {
  b_nodes : list Node;
  b_connections : gmap string Outgoing;
  previousNodeId : string;
  nodeCount : nat
}.

(** [{ main: [[{ node: target, type: 'main', index: 0 }]] }] *)
Definition linkTo (target : string) : Outgoing :=
  {| main := [[ {| edge_node := target; edge_type := "main"; edge_index := 0 |} ]] |}.

(** The common tail of the three insertion sites: [nodes.push(node)],
    [connections[previousNodeId] = ...], [previousNodeId = node.id], with
    [nodeCount] already incremented to [count]. *)
Definition pushLinked (b : Builder) (count : nat) (node : Node) : Builder :=
  {| b_nodes := b_nodes b ++ [node];
     b_connections := <[previousNodeId b := linkTo (id node)]> (b_connections b);
     previousNodeId := id node;
     nodeCount := count |}.

(** The test guarding the AI agent node. *)
Definition wantsAgent (description : string) (context : Context) : bool :=
  from_option (fun ps => arrayIncludes ps "ai_agent") false (patterns context)
  || includes (toLowerCase description) "ai"
  || includes (toLowerCase description) "chat".

Definition addAgent (b : Builder) : Builder :=
  let count := S (nodeCount b) in
  pushLinked b count
    {| id := "agent_" +:+ pretty count;
       type := VString "@n8n/n8n-nodes-langchain.agent";
       name := "AI Agent";
       parameters := emptyObject;
       position := (450, 300)%Z |}.

(** The body of [requirements.integrations.forEach]. *)
Definition addIntegration (b : Builder) (integration : string) : Builder :=
  let count := S (nodeCount b) in
  pushLinked b count
    {| id := "node_" +:+ pretty count;
       type := getIntegrationNodeType integration;
       name := integration +:+ " Integration";
       parameters := emptyObject;
       position := (250 + Z.of_nat count * 200, 300)%Z |}.

(** [suggested.parameters || {}] *)
Definition parametersOrEmpty (p : option Json) : Json :=
  match p with
  | Some j => if jsonTruthy j then j else emptyObject
  | None => emptyObject
  end.

(** The body of [suggestedNodes.forEach]. *)
Definition addSuggested (b : Builder) (suggested : SuggestedNode) : Builder :=
  let count := S (nodeCount b) in
  pushLinked b count
    {| id := "node_" +:+ pretty count;
       type := from_option VString VUndefined (suggested_type suggested);
       name := suggested_name suggested;
       parameters := parametersOrEmpty (suggested_parameters suggested);
       position := (250 + Z.of_nat count * 200, 300)%Z |}.

(** [requirements.trigger || this.inferTrigger(context)] *)
Definition triggerTypeOf (requirements : Requirements) (context : Context) : string :=
  match trigger requirements with
  | Some t => if String.eqb t "" then inferTrigger context else t
  | None => inferTrigger context
  end.

(** The builder after the trigger node has been pushed. *)
Definition withTrigger (requirements : Requirements) (context : Context) : Builder :=
  let triggerType := triggerTypeOf requirements context in
  let triggerId := "trigger_1" in
  {| b_nodes :=
       [ {| id := triggerId;
            type := getTriggerNodeType triggerType;
            name := triggerType +:+ " Trigger";
            parameters := emptyObject;
            position := (250, 300)%Z |} ];
     b_connections := ∅;
     previousNodeId := triggerId;
     nodeCount := 1 |}.

(** [context.suggested_nodes?.slice(0, 3) || []] *)
Definition suggestedNodesOf (context : Context) : list SuggestedNode :=
  from_option (take 3) [] (suggested_nodes context).

(** The statements of [generateWorkflowStructure] before its [return]: the
    trigger, the optional AI agent, the integrations, the suggested nodes. *)
Definition runBuilder
    (description : string) (requirements : Requirements) (context : Context)
  : Builder :=
  let b := withTrigger requirements context in
  let b := if wantsAgent description context then addAgent b else b in
  let b := foldl addIntegration b (default [] (integrations requirements)) in
  foldl addSuggested b (suggestedNodesOf context).

(** [generateWorkflowStructure] *)
Definition generateWorkflowStructure
    (description : string) (requirements : Requirements) (context : Context)
  : Workflow :=
  let b := runBuilder description requirements context in
  {| nodes := b_nodes b;
     connections := b_connections b;
     settings := {| executionOrder := "v1" |} |}.

(** [n.type.includes('agent')]: a string answers, anything else has no
    [includes] method and the call throws a [TypeError] ([None]). *)
Definition typeIncludes (v : Value) (sub : string) : option bool :=
  match v with
  | VString s => Some (includes s sub)
  | VUndefined | VInherited _ => None
  end.

(** [structure.nodes.some(n => n.type.includes('agent'))]: stops at the first
    node that answers [true]; an exception in the callback propagates. *)
Fixpoint someTypeIncludesAgent (ns : list Node) : option bool :=
  match ns with
  | [] => Some false
  | n :: ns' =>
      match typeIncludes (type n) "agent" with
      | None => None
      | Some true => Some true
      | Some false => someTypeIncludesAgent ns'
      end
  end.

(** [steps.push(`${steps.length + 1}. text`)] *)
Definition pushNumbered (steps : list string) (text : string) : list string :=
  steps ++ [pretty (S (length steps)) +:+ ". " +:+ text].

(** [generateImplementationSteps]; [None] when the [some] callback throws.
    The [context] argument is not read. *)
Definition generateImplementationSteps (structure : Workflow) (context : Context)
  : option (list string) :=
  let steps := [] in
  let steps := steps ++ ["1. Create a new workflow in n8n"] in
  let steps := steps ++ ["2. Add the trigger node and configure its settings"] in
  hasAgent ← someTypeIncludesAgent (nodes structure);
  let steps :=
    if hasAgent : bool
    then steps ++ ["3. Configure the AI agent with appropriate model and tools"]
    else steps in
  let steps := pushNumbered steps "Connect all nodes as shown in the structure" in
  let steps := pushNumbered steps "Configure credentials for each integration" in
  let steps := pushNumbered steps "Test the workflow with sample data" in
  let steps := pushNumbered steps "Add error handling and logging nodes" in
  Some steps.

(** [requirements] as [generateNotes] reads it: the one field [complexity],
    which the builder does not look at. *)
Record NoteRequirements : Type := { complexity : option string }.

(** [generateNotes] *)
Definition generateNotes (requirements : NoteRequirements) (context : Context)
  : list string :=
  let notes := [] in
  let notes :=
    if from_option (fun ps => arrayIncludes ps "microservice") false (patterns context)
    then notes ++ ["Consider implementing as a microservice with proper error responses"]
    else notes in
  let notes :=
    if bool_decide (complexity requirements = Some "advanced")
    then notes ++ ["This workflow may benefit from being split into sub-workflows"]
    else notes in
  let notes := notes ++ ["Remember to add proper error handling and logging"] in
  let notes :=
    notes ++ ["Test thoroughly with edge cases before deploying to production"] in
  notes.

End GenerateWorkflow.

(** ** The insights handler: [GetInsightsHandler] *)

Module GetInsights.
Import Js.

(** One element of [insights.workflow_matches]. *)
Record WorkflowMatch : Type := { workflow_name : string }.

(** One element of [insights.node_suggestions]; [type] is read through
    [?.] and may be absent. *)
Record NodeSuggestion : Type := {
  node_type : option string;
  node_name : string
}.

(** The insights object returned by the RAG client. *)
Record Insights : Type := {
  workflow_matches : option (list WorkflowMatch);
  node_suggestions : option (list NodeSuggestion);
  recommended_patterns : option (list string);
  complexity_estimate : option string
}.

(** [suggestApproach] *)
Definition suggestApproach (insights : Insights) : string :=
  let patterns := default [] (recommended_patterns insights) in
  let topWorkflow := workflow_matches insights ≫= head in
  if arrayIncludes patterns "microservice" then
    "Use a microservice pattern with webhook triggers for modular design."
  else if arrayIncludes patterns "ai_agent" then
    "Implement an AI agent with tool integration for intelligent automation."
  else if arrayIncludes patterns "rag" then
    "Use RAG pattern for context-aware responses with vector database integration."
  else
    match topWorkflow with
    | Some w =>
        "Consider adapting the " +:+ dquote +:+ workflow_name w +:+ dquote
          +:+ " workflow as a starting point."
    | None => "Start with a simple webhook trigger and build incrementally."
    end.

(** [n.type?.includes(sub)] used as a condition: an absent type yields
    [undefined], which is falsy. *)
Definition typeIncludes (n : NodeSuggestion) (sub : string) : bool :=
  from_option (fun t => includes t sub) false (node_type n).

(** [steps.push(x)] guarded by [if (c)]. *)
Definition pushIf (c : bool) (x : string) (l : list string) : list string :=
  if c then l ++ [x] else l.

(** [identifyKeyComponents] *)
Definition identifyKeyComponents (insights : Insights) : list string :=
  let components := [] in
  let nodes := default [] (node_suggestions insights) in
  let hasTrigger :=
    existsb (fun n => typeIncludes n "trigger" || typeIncludes n "webhook") nodes in
  let hasAI :=
    existsb (fun n => typeIncludes n "ai" || typeIncludes n "agent"
                      || typeIncludes n "openai") nodes in
  let hasDatabase :=
    existsb (fun n => typeIncludes n "supabase" || typeIncludes n "postgres") nodes in
  let hasMessaging :=
    existsb (fun n => typeIncludes n "telegram" || typeIncludes n "slack"
                      || typeIncludes n "email") nodes in
  let components := pushIf (negb hasTrigger) "Webhook or manual trigger" components in
  let components := pushIf hasAI "AI/LLM integration" components in
  let components := pushIf hasDatabase "Database storage" components in
  let components := pushIf hasMessaging "Messaging integration" components in
  foldl (fun components node => components ++ [node_name node +:+ " node"])
        components (take 3 nodes).

(** [getConsiderations] *)
Definition getConsiderations (insights : Insights) : list string :=
  let considerations := [] in
  let considerations :=
    pushIf (bool_decide (complexity_estimate insights = Some "advanced"))
      "This is a complex workflow that may require multiple sub-workflows"
      considerations in
  let considerations :=
    pushIf (from_option (fun ps => arrayIncludes ps "ai_agent") false
              (recommended_patterns insights))
      "Configure AI agent with appropriate tools and memory management"
      considerations in
  let considerations :=
    pushIf (from_option (existsb (fun n => typeIncludes n "database")) false
              (node_suggestions insights))
      "Set up database credentials and schema before implementation"
      considerations in
  let considerations :=
    considerations ++ ["Consider error handling and retry logic for reliability"] in
  let considerations :=
    considerations ++ ["Implement logging for debugging and monitoring"] in
  considerations.

End GetInsights.

(** ** The complete-workflow generator: [generate_complete_workflow] *)

Module WorkflowGenerator.
Import Js.

(** [generateImplementationSteps(features, outputFormat, useTaskManager)] *)
Definition generateImplementationSteps
    (features : list string) (outputFormat : string) (useTaskManager : bool)
  : list string :=
  let steps := [] in
  if String.eqb outputFormat "microservices" then
    let steps := steps ++ ["Create main orchestrator workflow with webhook trigger"] in
    let steps := steps ++ ["Design separate microservice workflows for each feature"] in
    let steps :=
      foldl (fun steps f =>
               steps ++ ["Implement " +:+ f
                         +:+ " microservice with webhook trigger and response"])
            steps features in
    let steps :=
      if useTaskManager then
        let steps := steps ++ ["Integrate Task Manager for workflow orchestration"] in
        steps ++ ["Add task creation and monitoring capabilities"]
      else steps in
    let steps := steps ++ ["Connect microservices via HTTP requests"] in
    let steps := steps ++ ["Add centralized logging and error handling"] in
    steps
  else
    let steps := steps ++ ["Create main workflow with appropriate trigger"] in
    let steps :=
      foldl (fun steps f =>
               steps ++ ["Add " +:+ f +:+ " integration nodes and configuration"])
            steps features in
    let steps := steps ++ ["Implement error handling and logging"] in
    let steps := steps ++ ["Add documentation via Sticky Notes"] in
    let steps := steps ++ ["Test all connections and data flow"] in
    steps.

Section Prompt.

(** IEEE-754 doubles are not modelled: the similarity scores stay abstract,
    and so does the decimal rendering of [Math.round(similarity * 100)]. *)
Variable Number : Type.
Variable showRoundedPercent : Number → string.

(** One element of [relevantWorkflows]. *)
Record RelevantWorkflow : Type := {
  rw_name : string;
  rw_similarity : Number;
  rw_description : string
}.

(** One element of [relevantNodes]. *)
Record RelevantNode : Type := {
  rn_name : string;
  rn_type : string;
  rn_description : string
}.

(** One element of [demoExamples] or [taskManagerExamples]; the prompt reads
    only the file name. *)
Record Example : Type := { example_name : string }.

(** The argument of [buildSystemPrompt].  The tool schema requires only
    [description] and [features]; the other scalars may be [undefined]. *)
Record PromptContext : Type := {
  description : string;
  features : list string;
  relevantWorkflows : list RelevantWorkflow;
  relevantNodes : list RelevantNode;
  demoExamples : list Example;
  taskManagerExamples : list Example;
  useTaskManager : option bool;
  outputFormat : option string;
  complexity : option string;
  claudeMdContent : string
}.

(** A multi-line piece of a template literal, one list element per line. *)
Definition lines (ls : list string) : string := join nl ls.

(** [`${x}`] for an optional string / boolean. *)
Definition showString (x : option string) : string := default "undefined" x.
Definition showBool (x : option bool) : string :=
  match x with
  | Some true => "true"
  | Some false => "false"
  | None => "undefined"
  end.

Definition workflowEntry (w : RelevantWorkflow) : string :=
  lines [ "";
          "- **" +:+ rw_name w +:+ "** (" +:+ showRoundedPercent (rw_similarity w)
            +:+ "% match)";
          "  " +:+ substring0 200 (rw_description w) +:+ "...";
          "" ].

Definition nodeEntry (n : RelevantNode) : string :=
  lines [ "";
          "- **" +:+ rn_name n +:+ "** (" +:+ rn_type n +:+ ")";
          "  " +:+ rn_description n;
          "" ].

Definition demoEntry (e : Example) : string :=
  lines [ "";
          "#### " +:+ example_name e;
          "- Webhook triggers for inter-service communication";
          "- Modular design with single responsibility";
          "- Clear input/output documentation";
          "" ].

Definition taskManagerEntry (e : Example) : string :=
  lines [ "";
          "#### " +:+ example_name e;
          "- Task creation and monitoring";
          "- Status updates via webhooks";
          "- Centralized task orchestration";
          "" ].

(** [outputFormat === 'microservices'] *)
Definition isMicroservices (c : PromptContext) : bool :=
  bool_decide (outputFormat c = Some "microservices").

(** [useTaskManager ? ... : ...] *)
Definition wantsTaskManager (c : PromptContext) : bool :=
  default false (useTaskManager c).

(** [buildSystemPrompt] *)
Definition buildSystemPrompt (c : PromptContext) : string :=
  trim (lines
    [ "";
      "# n8n Workflow Generation System Prompt";
      "";
      claudeMdContent c;
      "";
      "## Current Task";
      "";
      "Generate a " +:+ showString (complexity c)
        +:+ " complexity n8n workflow implementation with the following requirements:";
      "";
      "**Description**: " +:+ description c;
      "**Required Features**: " +:+ join ", " (features c);
      "**Output Format**: " +:+ showString (outputFormat c);
      "**Use Task Manager**: " +:+ showBool (useTaskManager c);
      "";
      "## Relevant Context";
      "";
      "### Similar Workflows Found:";
      join nl (workflowEntry <$> take 3 (relevantWorkflows c));
      "";
      "### Recommended Nodes:";
      join nl (nodeEntry <$> relevantNodes c);
      "";
      (if isMicroservices c then
         lines [ "";
                 "### Microservice Pattern Examples:";
                 join nl (demoEntry <$> demoExamples c);
                 "" ]
       else "");
      "";
      (if wantsTaskManager c then
         lines [ "";
                 "### Task Manager Integration:";
                 join nl (taskManagerEntry <$> taskManagerExamples c);
                 "" ]
       else "");
      "";
      "## Implementation Requirements";
      "";
      "1. **Architecture**:";
      "   - " +:+ (if isMicroservices c
                   then "Create separate workflows for each major function"
                   else "Create a single comprehensive workflow");
      "   - " +:+ (if wantsTaskManager c
                   then "Integrate with Task Manager for orchestration"
                   else "Use direct workflow connections");
      "   - Implement proper error handling at each step";
      "   - Add comprehensive logging nodes";
      "";
      "2. **Features to Implement**:";
      join nl ((fun f => "   - " +:+ f +:+ ": Full integration with all necessary nodes")
                 <$> features c);
      "";
      "3. **Best Practices**:";
      "   - Use Sticky Notes for documentation";
      "   - Implement proper credential references";
      "   - Add error handling and logging";
      "   - Follow the patterns from similar workflows";
      "   - Ensure all nodes are properly connected";
      "";
      "4. **Output Requirements**:";
      "   - Generate complete, valid JSON workflow(s)";
      "   - Include all necessary node configurations";
      "   - Ensure proper connections between nodes";
      "   - Add helpful Sticky Notes for documentation";
      "";
      "Generate the complete workflow implementation(s) now.";
      "" ]).

End Prompt.

(** The [systemPrompt] field of the implementation plan built by
    [handleGenerateCompleteWorkflow]:
    [systemPrompt.substring(0, 1000) + '... [truncated for display]'] *)
Definition displayPrompt (systemPrompt : string) : string :=
  substring0 1000 systemPrompt +:+ "... [truncated for display]".

End WorkflowGenerator.

(** * Properties *)

Import Js.
Module GW := GenerateWorkflow.
Module GI := GetInsights.
Module WG := WorkflowGenerator.

(** ** Notions the statements are phrased in *)

(** [sub] occurs in [s]. *)
Definition Contains (s sub : string) : Prop :=
  ∃ pre post, s = pre +:+ sub +:+ post.

(** The ids of a workflow's nodes, in placement order. *)
Definition nodeIds (w : GW.Workflow) : list string := GW.id <$> GW.nodes w.

(** The target ids listed under one source of the connection map. *)
Definition targets (o : GW.Outgoing) : list string :=
  GW.edge_node <$> concat (GW.main o).

(** [edge w s t]: the connection map of [w] links source [s] to target [t]. *)
Definition edge (w : GW.Workflow) (s t : string) : Prop :=
  ∃ o, GW.connections w !! s = Some o ∧ t ∈ targets o.

(** The element at position [k], counted from 0, starts with the decimal
    numeral of [k + 1] followed by a period and a space. *)
Definition consecutivelyNumbered (steps : list string) : Prop :=
  ∀ k s, steps !! k = Some s → String.prefix (pretty (S k) +:+ ". ") s = true.

(** The suggestion's type is present and contains [sub]. *)
Definition TypeContains (n : GI.NodeSuggestion) (sub : string) : Prop :=
  ∃ t, GI.node_type n = Some t ∧ Contains t sub.

(** [adjacent l s t]: [t] is placed immediately after [s] in [l]. *)
Definition adjacent (l : list string) (s t : string) : Prop :=
  ∃ i, l !! i = Some s ∧ l !! S i = Some t.

(** The ids the builder can have handed out once its counter reads [n]. *)
Definition generatedId (n : nat) (x : string) : Prop :=
  x = "trigger_1" ∨ x = "agent_2" ∨ ∃ k, k ≤ n ∧ x = "node_" +:+ pretty k.

Definition builderIds (b : GW.Builder) : list string := GW.id <$> GW.b_nodes b.

(** What every insertion preserves: the ids start with the trigger, end
    with [previousNodeId], are pairwise distinct and were handed out by the
    counter; the connection map holds exactly the links between neighbours. *)
Record chainInvariant (b : GW.Builder) : Prop := {
  inv_head : head (builderIds b) = Some "trigger_1";
  inv_last : last (builderIds b) = Some (GW.previousNodeId b);
  inv_nodup : NoDup (builderIds b);
  inv_ids : Forall (generatedId (GW.nodeCount b)) (builderIds b);
  inv_conn : ∀ s o,
    GW.b_connections b !! s = Some o
    ↔ ∃ t, adjacent (builderIds b) s t ∧ o = GW.linkTo t
}.

(** The four kinds of node the builder pushes, as functions of the counter
    value they are created with. *)
Definition triggerNode (requirements : GW.Requirements) (context : GW.Context)
  : GW.Node :=
  {| GW.id := "trigger_1";
     GW.type := GW.getTriggerNodeType (GW.triggerTypeOf requirements context);
     GW.name := GW.triggerTypeOf requirements context +:+ " Trigger";
     GW.parameters := emptyObject;
     GW.position := (250, 300)%Z |}.

Definition agentNode (count : nat) : GW.Node :=
  {| GW.id := "agent_" +:+ pretty count;
     GW.type := VString "@n8n/n8n-nodes-langchain.agent";
     GW.name := "AI Agent";
     GW.parameters := emptyObject;
     GW.position := (450, 300)%Z |}.

Definition integrationNode (count : nat) (integration : string) : GW.Node :=
  {| GW.id := "node_" +:+ pretty count;
     GW.type := GW.getIntegrationNodeType integration;
     GW.name := integration +:+ " Integration";
     GW.parameters := emptyObject;
     GW.position := (250 + Z.of_nat count * 200, 300)%Z |}.

Definition suggestedNode (count : nat) (suggested : GW.SuggestedNode) : GW.Node :=
  {| GW.id := "node_" +:+ pretty count;
     GW.type := from_option VString VUndefined (GW.suggested_type suggested);
     GW.name := GW.suggested_name suggested;
     GW.parameters := GW.parametersOrEmpty (GW.suggested_parameters suggested);
     GW.position := (250 + Z.of_nat count * 200, 300)%Z |}.

(** The counter value the first integration or suggested node is created
    with: 3 behind an agent, 2 otherwise. *)
Definition firstNodeCount (description : string) (context : GW.Context) : nat :=
  if GW.wantsAgent description context then 3 else 2.

(** The node types in the two tables, with their fallbacks. *)
Definition triggerNodeTypes : list string :=
  [ "n8n-nodes-base.webhook"; "n8n-nodes-base.scheduleTrigger";
    "n8n-nodes-base.manualTrigger"; "@n8n/n8n-nodes-langchain.chatTrigger" ].

Definition integrationNodeTypes : list string :=
  [ "n8n-nodes-base.slack"; "n8n-nodes-base.telegram"; "n8n-nodes-base.emailSend";
    "@n8n/n8n-nodes-langchain.lmChatOpenAi";
    "@n8n/n8n-nodes-langchain.supabaseVectorStore"; "n8n-nodes-base.httpRequest" ].

(** The seven and the six steps of the generate-workflow handler. *)
Definition stepsWithAgent : list string :=
  [ "1. Create a new workflow in n8n";
    "2. Add the trigger node and configure its settings";
    "3. Configure the AI agent with appropriate model and tools";
    "4. Connect all nodes as shown in the structure";
    "5. Configure credentials for each integration";
    "6. Test the workflow with sample data";
    "7. Add error handling and logging nodes" ].

Definition stepsWithoutAgent : list string :=
  [ "1. Create a new workflow in n8n";
    "2. Add the trigger node and configure its settings";
    "3. Connect all nodes as shown in the structure";
    "4. Configure credentials for each integration";
    "5. Test the workflow with sample data";
    "6. Add error handling and logging nodes" ].

(** An insights object with every absent collection replaced by the empty
    one. *)
Definition withEmptyDefaults (insights : GI.Insights) : GI.Insights :=
  {| GI.workflow_matches := Some (default [] (GI.workflow_matches insights));
     GI.node_suggestions := Some (default [] (GI.node_suggestions insights));
     GI.recommended_patterns := Some (default [] (GI.recommended_patterns insights));
     GI.complexity_estimate := GI.complexity_estimate insights |}.

(** [s] ends with [suffix]. *)
Definition EndsWith (s suffix : string) : Prop := ∃ pre, s = pre +:+ suffix.

(** The lines of the template literal of [buildSystemPrompt] between its
    first and its last line feed. *)
Definition promptLines (Number : Type) (showRoundedPercent : Number → string)
    (c : WG.PromptContext Number) : list string :=
  [ "# n8n Workflow Generation System Prompt";
    "";
    WG.claudeMdContent _ c;
    "";
    "## Current Task";
    "";
    "Generate a " +:+ WG.showString (WG.complexity _ c)
      +:+ " complexity n8n workflow implementation with the following requirements:";
    "";
    "**Description**: " +:+ WG.description _ c;
    "**Required Features**: " +:+ join ", " (WG.features _ c);
    "**Output Format**: " +:+ WG.showString (WG.outputFormat _ c);
    "**Use Task Manager**: " +:+ WG.showBool (WG.useTaskManager _ c);
    "";
    "## Relevant Context";
    "";
    "### Similar Workflows Found:";
    join nl (WG.workflowEntry _ showRoundedPercent <$> take 3 (WG.relevantWorkflows _ c));
    "";
    "### Recommended Nodes:";
    join nl (WG.nodeEntry <$> WG.relevantNodes _ c);
    "";
    (if WG.isMicroservices _ c then
       WG.lines [ "";
                  "### Microservice Pattern Examples:";
                  join nl (WG.demoEntry <$> WG.demoExamples _ c);
                  "" ]
     else "");
    "";
    (if WG.wantsTaskManager _ c then
       WG.lines [ "";
                  "### Task Manager Integration:";
                  join nl (WG.taskManagerEntry <$> WG.taskManagerExamples _ c);
                  "" ]
     else "");
    "";
    "## Implementation Requirements";
    "";
    "1. **Architecture**:";
    "   - " +:+ (if WG.isMicroservices _ c
                 then "Create separate workflows for each major function"
                 else "Create a single comprehensive workflow");
    "   - " +:+ (if WG.wantsTaskManager _ c
                 then "Integrate with Task Manager for orchestration"
                 else "Use direct workflow connections");
    "   - Implement proper error handling at each step";
    "   - Add comprehensive logging nodes";
    "";
    "2. **Features to Implement**:";
    join nl ((λ f, "   - " +:+ f +:+ ": Full integration with all necessary nodes")
               <$> WG.features _ c);
    "";
    "3. **Best Practices**:";
    "   - Use Sticky Notes for documentation";
    "   - Implement proper credential references";
    "   - Add error handling and logging";
    "   - Follow the patterns from similar workflows";
    "   - Ensure all nodes are properly connected";
    "";
    "4. **Output Requirements**:";
    "   - Generate complete, valid JSON workflow(s)";
    "   - Include all necessary node configurations";
    "   - Ensure proper connections between nodes";
    "   - Add helpful Sticky Notes for documentation";
    "";
    "Generate the complete workflow implementation(s) now." ].

(** [someTypeIncludesAgent] reads the node types only. *)
Fixpoint someIncludesAgent (types : list Value) : option bool :=
  match types with
  | [] => Some false
  | v :: types' =>
      match GW.typeIncludes v "agent" with
      | None => None
      | Some true => Some true
      | Some false => someIncludesAgent types'
      end
  end.

(** ** Strings *)

Lemma append_cons (c : ascii) (s t : string) : String c s +:+ t = String c (s +:+ t).
Proof. reflexivity. Qed.

Lemma append_empty (t : string) : "" +:+ t = t.
Proof. reflexivity. Qed.

Lemma prefix_spec (p s : string) :
  String.prefix p s = true ↔ ∃ post, s = p +:+ post.
Proof.
  revert s. induction p as [|a p IH]; intros s; simpl.
  - split; [intros _; by exists s | by destruct s].
  - destruct s as [|b s].
    + split; [done | by intros [post ?]].
    + setoid_rewrite append_cons. cbn [String.prefix].
      destruct (Ascii.ascii_dec a b) as [->|Hne].
      * rewrite IH. split; intros [post H]; exists post; congruence.
      * split; [done | intros [post [= ? ?]]; done].
Qed.

Lemma includes_spec (s sub : string) :
  includes s sub = true ↔ Contains s sub.
Proof.
  unfold Contains. induction s as [|c s IH].
  - cbn [includes]. rewrite orb_false_r, prefix_spec. split.
    + intros [post H]. by exists "", post.
    + intros (pre & post & H). destruct pre; [by exists post | done].
  - cbn [includes]. rewrite orb_true_iff, prefix_spec, IH. split.
    + intros [[post H] | (pre & post & H)].
      * by exists "", post.
      * exists (String c pre), post. rewrite append_cons. by rewrite H.
    + intros (pre & post & H). destruct pre as [|c' pre].
      * left. by exists post.
      * right. exists pre, post. rewrite append_cons in H. congruence.
Qed.

Lemma includes_false (s sub : string) :
  includes s sub = false ↔ ¬ Contains s sub.
Proof. rewrite <- includes_spec. by destruct (includes s sub). Qed.

(** ** Lists built by repeated [push] *)

Lemma foldl_push {A} (g : A → string) (acc : list string) (l : list A) :
  foldl (λ steps x, steps ++ [g x]) acc l = acc ++ (g <$> l).
Proof.
  revert acc. induction l as [|x l IH]; intros acc; simpl.
  - by rewrite app_nil_r.
  - by rewrite IH, <- app_assoc.
Qed.

(** ** The worked example of the graph builder *)

(** C1: for description "AI chatbot with memory", the single integration
    "slack" and the context pattern "ai_agent", the builder returns the
    nodes trigger_1 (manual trigger), agent_2 (AI agent) and node_3 (slack),
    in that order, and the connection map links trigger_1 to agent_2 and
    agent_2 to node_3, and nothing else. *)
Theorem generateWorkflowStructure_chatbot_example :
  GW.generateWorkflowStructure "AI chatbot with memory"
    {| GW.trigger := None; GW.integrations := Some ["slack"] |}
    {| GW.patterns := Some ["ai_agent"]; GW.suggested_nodes := None |}
  = {| GW.nodes :=
         [ {| GW.id := "trigger_1";
              GW.type := VString "n8n-nodes-base.manualTrigger";
              GW.name := "manual Trigger";
              GW.parameters := emptyObject;
              GW.position := (250, 300)%Z |};
           {| GW.id := "agent_2";
              GW.type := VString "@n8n/n8n-nodes-langchain.agent";
              GW.name := "AI Agent";
              GW.parameters := emptyObject;
              GW.position := (450, 300)%Z |};
           {| GW.id := "node_3";
              GW.type := VString "n8n-nodes-base.slack";
              GW.name := "slack Integration";
              GW.parameters := emptyObject;
              GW.position := (850, 300)%Z |} ];
       GW.connections :=
         {[ "trigger_1" := GW.linkTo "agent_2"; "agent_2" := GW.linkTo "node_3" ]};
       GW.settings := {| GW.executionOrder := "v1" |} |}.
Proof. vm_compute. reflexivity. Qed.

(** ** The graph builder keeps a chain *)

Lemma generatedId_mono n m x : n ≤ m → generatedId n x → generatedId m x.
Proof.
  intros Hnm [?|[?|(k & Hk & ?)]]; [by left | by right; left |].
  right; right. exists k. split; [lia | done].
Qed.

Lemma node_id_fresh n l :
  Forall (generatedId n) l → "node_" +:+ pretty (S n) ∉ l.
Proof.
  intros Hall Hin. rewrite Forall_forall in Hall.
  destruct (Hall _ Hin) as [H|[H|(k & Hk & H)]].
  - discriminate H.
  - discriminate H.
  - apply (inj (String.app "node_")) in H. apply (inj pretty) in H. lia.
Qed.

Lemma adjacent_snoc_last l p x s t :
  last l = Some p → NoDup (l ++ [x]) →
  adjacent (l ++ [x]) s t ↔ adjacent l s t ∨ (s = p ∧ t = x).
Proof.
  intros Hlast Hnd.
  assert (Hp : l !! pred (length l) = Some p) by by rewrite <- last_lookup.
  assert (Hlen : 0 < length l) by (destruct l; [done | simpl; lia]).
  split.
  - intros (i & Hs & Ht).
    assert (S i < length (l ++ [x])) by by eapply lookup_lt_Some.
    rewrite length_app in *. simpl in *.
    destruct (decide (S i = length l)) as [Heq|Hne].
    + right. assert (i = pred (length l)) as -> by lia.
      rewrite lookup_app_l in Hs by lia. rewrite Heq in Ht.
      rewrite list_lookup_middle in Ht by done. split; congruence.
    + left. exists i. rewrite !lookup_app_l in * by lia. done.
  - intros [(i & Hs & Ht) | [-> ->]].
    + exists i. split; by apply lookup_app_l_Some.
    + exists (pred (length l)). split.
      * by apply lookup_app_l_Some.
      * replace (S (pred (length l))) with (length l) by lia.
        by apply list_lookup_middle.
Qed.

Lemma pushLinked_invariant b count node :
  chainInvariant b →
  GW.nodeCount b ≤ count →
  GW.id node ∉ builderIds b →
  generatedId count (GW.id node) →
  chainInvariant (GW.pushLinked b count node).
Proof.
  intros [Hhead Hlast Hnd Hids Hconn] Hcount Hfresh Hgen.
  assert (Hids' : builderIds (GW.pushLinked b count node)
                  = builderIds b ++ [GW.id node]).
  { unfold builderIds. simpl. by rewrite fmap_app. }
  assert (Hnd' : NoDup (builderIds b ++ [GW.id node])).
  { apply NoDup_app. split; [done|]. split; [|apply NoDup_singleton].
    intros x Hx ->%list_elem_of_singleton. done. }
  split; rewrite ?Hids'.
  - destruct (builderIds b); [done | done].
  - simpl. apply last_snoc.
  - done.
  - simpl. apply Forall_app. split.
    + eapply Forall_impl; [exact Hids|]. intros x. by apply generatedId_mono.
    + by apply Forall_singleton.
  - intros s o. simpl.
    setoid_rewrite (adjacent_snoc_last _ _ _ _ _ Hlast Hnd').
    destruct (decide (GW.previousNodeId b = s)) as [<-|Hne].
    + rewrite lookup_insert_eq. split.
      * intros [= <-]. exists (GW.id node). split; [by right | done].
      * intros (t & [(i & Hs & Ht) | [_ ->]] & ->); [|done].
        exfalso. rewrite last_lookup in Hlast.
        assert (i = pred (length (builderIds b))) as ->
          by exact (NoDup_lookup _ _ _ _ Hnd Hs Hlast).
        apply lookup_lt_Some in Ht. apply lookup_lt_Some in Hs. lia.
    + rewrite lookup_insert_ne by done. rewrite Hconn.
      split; intros (t & Hadj & ->); exists t; (split; [|done]).
      * by left.
      * by destruct Hadj as [? | [? _]].
Qed.

Lemma withTrigger_invariant requirements context :
  chainInvariant (GW.withTrigger requirements context).
Proof.
  split; try done.
  - apply NoDup_singleton.
  - apply Forall_singleton. by left.
  - intros s o. simpl. rewrite lookup_empty. split; [done|].
    intros (t & (i & Hs & Ht) & _). by destruct i.
Qed.

Lemma addAgent_invariant requirements context :
  chainInvariant (GW.addAgent (GW.withTrigger requirements context)).
Proof.
  apply pushLinked_invariant.
  - apply withTrigger_invariant.
  - simpl. lia.
  - compute_done.
  - right; left. reflexivity.
Qed.

Lemma addIntegration_invariant b integration :
  chainInvariant b → chainInvariant (GW.addIntegration b integration).
Proof.
  intros Hb. apply pushLinked_invariant; [done | lia | |].
  - apply node_id_fresh, Hb.
  - right; right. by exists (S (GW.nodeCount b)).
Qed.

Lemma addSuggested_invariant b suggested :
  chainInvariant b → chainInvariant (GW.addSuggested b suggested).
Proof.
  intros Hb. apply pushLinked_invariant; [done | lia | |].
  - apply node_id_fresh, Hb.
  - right; right. by exists (S (GW.nodeCount b)).
Qed.

Lemma foldl_invariant {A} (f : GW.Builder → A → GW.Builder) (l : list A) b :
  (∀ b x, chainInvariant b → chainInvariant (f b x)) →
  chainInvariant b → chainInvariant (foldl f b l).
Proof.
  intros Hf. revert b. induction l as [|x l IH]; intros b Hb; simpl; [done|].
  apply IH, Hf, Hb.
Qed.

Lemma runBuilder_invariant description requirements context :
  chainInvariant (GW.runBuilder description requirements context).
Proof.
  unfold GW.runBuilder.
  apply foldl_invariant; [apply addSuggested_invariant|].
  apply foldl_invariant; [apply addIntegration_invariant|].
  destruct (GW.wantsAgent description context).
  - apply addAgent_invariant.
  - apply withTrigger_invariant.
Qed.

Lemma targets_linkTo t : targets (GW.linkTo t) = [t].
Proof. reflexivity. Qed.

Lemma edge_adjacent description requirements context s t :
  let w := GW.generateWorkflowStructure description requirements context in
  edge w s t ↔ adjacent (nodeIds w) s t.
Proof.
  intros w. subst w.
  pose proof (runBuilder_invariant description requirements context) as Hinv.
  unfold edge. change (GW.connections _) with
    (GW.b_connections (GW.runBuilder description requirements context)).
  change (nodeIds _) with (builderIds (GW.runBuilder description requirements context)).
  split.
  - intros (o & Ho & Ht). apply (inv_conn _ Hinv) in Ho as (t' & Hadj & ->).
    rewrite targets_linkTo in Ht. by apply list_elem_of_singleton in Ht as ->.
  - intros Hadj. exists (GW.linkTo t). split.
    + apply (inv_conn _ Hinv). by exists t.
    + rewrite targets_linkTo. by apply list_elem_of_singleton.
Qed.

Lemma filter_id_head (x : string) (n : GW.Node) (ns : list GW.Node) :
  GW.id n = x → NoDup (GW.id <$> (n :: ns)) →
  length (filter (λ m, GW.id m = x) (n :: ns)) = 1.
Proof.
  intros Hn Hnd. rewrite filter_cons_True by done. simpl. f_equal.
  rewrite fmap_cons in Hnd. apply NoDup_cons in Hnd as [Hnotin _].
  induction ns as [|m ns IH]; [done|].
  rewrite fmap_cons, not_elem_of_cons in Hnotin. destruct Hnotin as [Hne Hnotin].
  rewrite filter_cons_False by congruence. by apply IH.
Qed.

(** One node for the trigger, one for the agent when wanted, one per
    integration, and one per suggested node among the first three. *)
Lemma generateWorkflowStructure_node_count description requirements context :
  length (GW.nodes (GW.generateWorkflowStructure description requirements context))
  = 1 + (if GW.wantsAgent description context then 1 else 0)
    + length (default [] (GW.integrations requirements))
    + length (GW.suggestedNodesOf context)
  ∧ length (GW.suggestedNodesOf context) ≤ 3.
Proof.
  assert (Hfold : ∀ A (f : GW.Builder → A → GW.Builder) (l : list A) b,
             (∀ b x, length (GW.b_nodes (f b x)) = S (length (GW.b_nodes b))) →
             length (GW.b_nodes (foldl f b l)) = length (GW.b_nodes b) + length l).
  { intros A f l b Hf. revert b. induction l as [|x l IH]; intros b; simpl; [lia|].
    rewrite IH, Hf. lia. }
  assert (Hpush : ∀ b count node,
             length (GW.b_nodes (GW.pushLinked b count node))
             = S (length (GW.b_nodes b))).
  { intros b count node. simpl. rewrite length_app. simpl. lia. }
  split.
  - unfold GW.generateWorkflowStructure, GW.runBuilder. cbn [GW.nodes].
    rewrite !Hfold by (intros; apply Hpush).
    destruct (GW.wantsAgent description context); simpl; lia.
  - unfold GW.suggestedNodesOf.
    destruct (GW.suggested_nodes context) as [l|]; simpl; [|lia].
    rewrite length_take. lia.
Qed.

(** C2: for every description, requirements and context, the generated
    workflow has exactly one node with id trigger_1, placed first; its node
    ids are pairwise distinct; every edge of the connection map joins two
    nodes of the list; every source has at most one target; every node but
    the trigger has exactly one incoming edge, which comes from the node
    placed immediately before it; the trigger has none.  The graph is a
    single simple path. *)
Theorem generateWorkflowStructure_simple_path
    (description : string) (requirements : GW.Requirements) (context : GW.Context) :
  let w := GW.generateWorkflowStructure description requirements context in
  length (filter (λ n, GW.id n = "trigger_1") (GW.nodes w)) = 1
  ∧ nodeIds w !! 0 = Some "trigger_1"
  ∧ NoDup (nodeIds w)
  ∧ (∀ s t, edge w s t → s ∈ nodeIds w ∧ t ∈ nodeIds w)
  ∧ (∀ s o, GW.connections w !! s = Some o → length (targets o) ≤ 1)
  ∧ (∀ i t, nodeIds w !! S i = Some t →
       ∀ s, edge w s t ↔ nodeIds w !! i = Some s)
  ∧ (∀ s, ¬ edge w s "trigger_1").
Proof.
  intros w.
  pose proof (runBuilder_invariant description requirements context) as Hinv.
  pose proof (edge_adjacent description requirements context) as Hedge.
  cbv zeta in Hedge. fold w in Hedge.
  assert (Hids : nodeIds w = builderIds (GW.runBuilder description requirements context))
    by reflexivity.
  destruct Hinv as [Hhead Hlast Hnd Hgen Hconn]. rewrite <- Hids in *.
  assert (H0 : nodeIds w !! 0 = Some "trigger_1") by by rewrite <- head_lookup.
  split_and!.
  - unfold nodeIds in *. destruct (GW.nodes w) as [|n ns]; [done|].
    apply filter_id_head; [|done]. simpl in H0. congruence.
  - done.
  - done.
  - intros s t (i & Hs & Ht)%Hedge. split; by eapply list_elem_of_lookup_2.
  - intros s o Ho.
    change (GW.connections w) with
      (GW.b_connections (GW.runBuilder description requirements context)) in Ho.
    apply Hconn in Ho as (t & _ & ->). rewrite targets_linkTo. simpl. lia.
  - intros i t Hi s. split.
    + intros (j & Hs & Ht)%Hedge.
      assert (S j = S i) as [= ->] by exact (NoDup_lookup _ _ _ _ Hnd Ht Hi).
      done.
    + intros Hs. apply Hedge. by exists i.
  - intros s (j & _ & Ht)%Hedge.
    by pose proof (NoDup_lookup _ _ _ _ Hnd Ht H0).
Qed.

(** ** The implementation steps of the complete-workflow generator *)

Lemma generateImplementationSteps_microservices features useTaskManager :
  WG.generateImplementationSteps features "microservices" useTaskManager
  = [ "Create main orchestrator workflow with webhook trigger";
      "Design separate microservice workflows for each feature" ]
    ++ ((λ f, "Implement " +:+ f +:+ " microservice with webhook trigger and response")
          <$> features)
    ++ (if useTaskManager
        then [ "Integrate Task Manager for workflow orchestration";
               "Add task creation and monitoring capabilities" ]
        else [])
    ++ [ "Connect microservices via HTTP requests";
         "Add centralized logging and error handling" ].
Proof.
  unfold WG.generateImplementationSteps. simpl String.eqb. cbv iota.
  rewrite foldl_push. destruct useTaskManager; simpl; by rewrite <- !app_assoc.
Qed.

Lemma generateImplementationSteps_single features outputFormat useTaskManager :
  outputFormat ≠ "microservices" →
  WG.generateImplementationSteps features outputFormat useTaskManager
  = [ "Create main workflow with appropriate trigger" ]
    ++ ((λ f, "Add " +:+ f +:+ " integration nodes and configuration") <$> features)
    ++ [ "Implement error handling and logging";
         "Add documentation via Sticky Notes";
         "Test all connections and data flow" ].
Proof.
  intros Hne. unfold WG.generateImplementationSteps.
  destruct (String.eqb_spec outputFormat "microservices") as [?|_]; [done|].
  rewrite foldl_push. simpl. by rewrite <- !app_assoc.
Qed.

(** C3, as stated, fails: the call does not return the seven steps
    orchestrator, slack, telegram, two task-manager steps, two closing
    steps; the list has eight entries. *)
Lemma steps_microservices_not_seven :
  ¬ (WG.generateImplementationSteps ["slack"; "telegram"] "microservices" true
     = [ "Create main orchestrator workflow with webhook trigger";
         "Implement slack microservice with webhook trigger and response";
         "Implement telegram microservice with webhook trigger and response";
         "Integrate Task Manager for workflow orchestration";
         "Add task creation and monitoring capabilities";
         "Connect microservices via HTTP requests";
         "Add centralized logging and error handling" ])
  ∧ length (WG.generateImplementationSteps ["slack"; "telegram"]
              "microservices" true) ≠ 7.
Proof. split; vm_compute; [intros [=] | lia]. Qed.

(** C3, amended: with features ["slack","telegram"], format "microservices"
    and the task manager on, the generator returns exactly 8 steps in this
    order: the orchestrator-creation step, the step that designs the separate
    microservice workflows, one microservice step per feature in input
    order, the two task-manager steps, and the two closing steps (HTTP
    connection, centralized logging). *)
Theorem steps_microservices_example :
  WG.generateImplementationSteps ["slack"; "telegram"] "microservices" true
  = [ "Create main orchestrator workflow with webhook trigger";
      "Design separate microservice workflows for each feature";
      "Implement slack microservice with webhook trigger and response";
      "Implement telegram microservice with webhook trigger and response";
      "Integrate Task Manager for workflow orchestration";
      "Add task creation and monitoring capabilities";
      "Connect microservices via HTTP requests";
      "Add centralized logging and error handling" ].
Proof. by rewrite generateImplementationSteps_microservices. Qed.

(** C4, as stated, fails: the call does not return just the three closing
    steps. *)
Lemma steps_single_not_only_closing :
  WG.generateImplementationSteps [] "single" false
  ≠ [ "Implement error handling and logging";
      "Add documentation via Sticky Notes";
      "Test all connections and data flow" ].
Proof. vm_compute. intros [=]. Qed.

(** C4, amended: with no features, format "single" and the task manager off,
    the generator returns exactly the trigger-creation step followed by the
    three closing steps of the single mode (error handling, documentation,
    testing), with no per-feature step. *)
Theorem steps_single_example :
  WG.generateImplementationSteps [] "single" false
  = [ "Create main workflow with appropriate trigger";
      "Implement error handling and logging";
      "Add documentation via Sticky Notes";
      "Test all connections and data flow" ].
Proof. by rewrite generateImplementationSteps_single. Qed.

(** ** The type mapping tables *)

(** A trigger key that is neither a key of the table nor a member of
    [Object.prototype] resolves to the manual trigger. *)
Lemma getTriggerNodeType_fallback (trigger : string) :
  GW.triggerMap !! trigger = None →
  trigger ∉ objectPrototypeMembers →
  GW.getTriggerNodeType trigger = VString "n8n-nodes-base.manualTrigger".
Proof.
  intros Hown Hproto. unfold GW.getTriggerNodeType, lookupProperty.
  rewrite Hown. by rewrite bool_decide_false.
Qed.

(** An integration key whose lower-case form is neither a key of the table
    nor a member of [Object.prototype] resolves to the HTTP request node. *)
Lemma getIntegrationNodeType_fallback (integration : string) :
  GW.integrationMap !! toLowerCase integration = None →
  toLowerCase integration ∉ objectPrototypeMembers →
  GW.getIntegrationNodeType integration = VString "n8n-nodes-base.httpRequest".
Proof.
  intros Hown Hproto. unfold GW.getIntegrationNodeType, lookupProperty.
  rewrite Hown. by rewrite bool_decide_false.
Qed.

(** The integration resolver does not distinguish keys that differ in case
    only. *)
Lemma getIntegrationNodeType_case_insensitive (a b : string) :
  toLowerCase a = toLowerCase b →
  GW.getIntegrationNodeType a = GW.getIntegrationNodeType b.
Proof. unfold GW.getIntegrationNodeType. by intros ->. Qed.

Lemma getIntegrationNodeType_Slack :
  GW.getIntegrationNodeType "Slack" = GW.getIntegrationNodeType "slack".
Proof. by apply getIntegrationNodeType_case_insensitive. Qed.

(** The trigger resolver matches its keys exactly. *)
Lemma getTriggerNodeType_exact :
  GW.getTriggerNodeType "webhook" = VString "n8n-nodes-base.webhook"
  ∧ GW.getTriggerNodeType "Webhook" = VString "n8n-nodes-base.manualTrigger".
Proof. split; reflexivity. Qed.

(** C5, at the failing input: ["constructor"] is not a key of either table,
    yet neither resolver returns its fallback type there.  The lookup finds
    the member that the table object inherits from [Object.prototype], which
    is truthy, so [||] never reaches the default, and the value returned is
    not a string at all. *)
Theorem resolvers_inherited_key_no_fallback :
  GW.triggerMap !! "constructor" = None
  ∧ GW.getTriggerNodeType "constructor" = VInherited "constructor"
  ∧ GW.getTriggerNodeType "constructor" ≠ VString "n8n-nodes-base.manualTrigger"
  ∧ GW.integrationMap !! toLowerCase "Constructor" = None
  ∧ GW.getIntegrationNodeType "Constructor" = VInherited "constructor"
  ∧ GW.getIntegrationNodeType "Constructor" ≠ VString "n8n-nodes-base.httpRequest".
Proof. repeat split; try reflexivity; vm_compute; intros [=]. Qed.

(** The builder only appends: the trigger node pushed by [withTrigger] stays
    in front. *)
Lemma runBuilder_keeps_trigger description requirements context :
  ∃ rest,
    GW.b_nodes (GW.runBuilder description requirements context)
    = GW.b_nodes (GW.withTrigger requirements context) ++ rest.
Proof.
  assert (Hfold : ∀ A (f : GW.Builder → A → GW.Builder) (l : list A) ns b,
             (∀ b x, ∃ m, GW.b_nodes (f b x) = GW.b_nodes b ++ [m]) →
             (∃ rest, GW.b_nodes b = ns ++ rest) →
             ∃ rest, GW.b_nodes (foldl f b l) = ns ++ rest).
  { intros A f l ns b Hf. revert b.
    induction l as [|x l IH]; intros b Hb; simpl; [done|].
    apply IH. destruct Hb as [rest Hb], (Hf b x) as [m Hm].
    exists (rest ++ [m]). by rewrite Hm, Hb, app_assoc. }
  unfold GW.runBuilder.
  apply Hfold; [intros; by eexists|].
  apply Hfold; [intros; by eexists|].
  destruct (GW.wantsAgent description context).
  - by eexists.
  - exists []. by rewrite app_nil_r.
Qed.

(** With the trigger kind "constructor" the trigger node's type is not a
    string, and the step generator of the same request throws on it. *)
Lemma constructor_trigger_breaks_steps description integrations context :
  GW.generateImplementationSteps
    (GW.generateWorkflowStructure description
       {| GW.trigger := Some "constructor"; GW.integrations := integrations |} context)
    context
  = None.
Proof.
  unfold GW.generateImplementationSteps, GW.generateWorkflowStructure.
  cbn [GW.nodes].
  destruct (runBuilder_keeps_trigger description
              {| GW.trigger := Some "constructor";
                 GW.integrations := integrations |} context)
    as (rest & ->).
  reflexivity.
Qed.

(** ** The insight synthesizer *)

Lemma typeIncludes_spec (n : GI.NodeSuggestion) (sub : string) :
  GI.typeIncludes n sub = true ↔ TypeContains n sub.
Proof.
  unfold GI.typeIncludes, TypeContains. destruct (GI.node_type n) as [t|]; simpl.
  - rewrite includes_spec. split.
    + intros H. by exists t.
    + by intros (t' & [= <-] & H).
  - split; [done | by intros (t & [=] & _)].
Qed.

Lemma existsb_Exists_iff {A} (f : A → bool) (P : A → Prop) (l : list A) :
  (∀ x, f x = true ↔ P x) → existsb f l = true ↔ Exists P l.
Proof.
  intros Hf. induction l as [|x l IH]; simpl.
  - by rewrite Exists_nil.
  - by rewrite Exists_cons, orb_true_iff, Hf, IH.
Qed.

(** C6: the approach is chosen by first match over the ordered checks
    microservice, ai_agent, rag, top workflow present, generic fallback: a
    check decides the result exactly when all checks before it fail,
    whatever the later ones say. *)
Theorem suggestApproach_first_match (insights : GI.Insights) :
  let patterns := default [] (GI.recommended_patterns insights) in
  let topWorkflow := GI.workflow_matches insights ≫= head in
  ("microservice" ∈ patterns →
     GI.suggestApproach insights
     = "Use a microservice pattern with webhook triggers for modular design.")
  ∧ ("microservice" ∉ patterns → "ai_agent" ∈ patterns →
     GI.suggestApproach insights
     = "Implement an AI agent with tool integration for intelligent automation.")
  ∧ ("microservice" ∉ patterns → "ai_agent" ∉ patterns → "rag" ∈ patterns →
     GI.suggestApproach insights
     = "Use RAG pattern for context-aware responses with vector database integration.")
  ∧ (∀ w, "microservice" ∉ patterns → "ai_agent" ∉ patterns → "rag" ∉ patterns →
     topWorkflow = Some w →
     GI.suggestApproach insights
     = "Consider adapting the " +:+ dquote +:+ GI.workflow_name w +:+ dquote
         +:+ " workflow as a starting point.")
  ∧ ("microservice" ∉ patterns → "ai_agent" ∉ patterns → "rag" ∉ patterns →
     topWorkflow = None →
     GI.suggestApproach insights
     = "Start with a simple webhook trigger and build incrementally.").
Proof.
  intros patterns topWorkflow. unfold GI.suggestApproach, arrayIncludes.
  fold patterns. fold topWorkflow.
  repeat case_bool_decide; repeat split; intros; try done.
  - by subst topWorkflow; destruct (GI.workflow_matches insights ≫= head); simplify_eq.
  - by subst topWorkflow; destruct (GI.workflow_matches insights ≫= head); simplify_eq.
Qed.

(** All three patterns and a top workflow at once: the microservice
    suggestion alone is returned. *)
Lemma suggestApproach_first_match_witness :
  let insights :=
    {| GI.workflow_matches := Some [ {| GI.workflow_name := "Top" |} ];
       GI.node_suggestions := None;
       GI.recommended_patterns := Some ["rag"; "ai_agent"; "microservice"];
       GI.complexity_estimate := None |} in
  "microservice" ∈ default [] (GI.recommended_patterns insights)
  ∧ GI.suggestApproach insights
    = "Use a microservice pattern with webhook triggers for modular design.".
Proof.
  intros insights.
  assert (H : "microservice" ∈ default [] (GI.recommended_patterns insights))
    by compute_done.
  split; [exact H|].
  exact (proj1 (suggestApproach_first_match insights) H).
Defined.

Lemma existsb_typeIncludes_false (sub : string) (ns : list GI.NodeSuggestion) :
  Forall (λ n, ∀ t, GI.node_type n = Some t → ¬ Contains t sub) ns →
  existsb (λ n, GI.typeIncludes n sub) ns = false.
Proof.
  induction 1 as [|n ns Hn _ IH]; simpl; [done|].
  rewrite IH, orb_false_r. unfold GI.typeIncludes.
  destruct (GI.node_type n) as [t|] eqn:Ht; simpl; [|done].
  apply includes_false. by apply Hn.
Qed.

(** C8: when the complexity estimate is "advanced", the recommended patterns
    do not include ai_agent and no suggested node has a type containing
    "database", the considerations are exactly the advanced-complexity note
    followed by the reliability note and the logging note. *)
Theorem getConsiderations_advanced_only (insights : GI.Insights) :
  GI.complexity_estimate insights = Some "advanced" →
  "ai_agent" ∉ default [] (GI.recommended_patterns insights) →
  Forall (λ n, ∀ t, GI.node_type n = Some t → ¬ Contains t "database")
         (default [] (GI.node_suggestions insights)) →
  GI.getConsiderations insights
  = [ "This is a complex workflow that may require multiple sub-workflows";
      "Consider error handling and retry logic for reliability";
      "Implement logging for debugging and monitoring" ].
Proof.
  intros Hadv Hai Hdb. unfold GI.getConsiderations.
  rewrite bool_decide_true by done.
  assert (from_option (λ ps, arrayIncludes ps "ai_agent") false
            (GI.recommended_patterns insights) = false) as ->.
  { destruct (GI.recommended_patterns insights) as [ps|]; simpl in *; [|done].
    by apply bool_decide_false. }
  assert (from_option (existsb (λ n, GI.typeIncludes n "database")) false
            (GI.node_suggestions insights) = false) as ->.
  { destruct (GI.node_suggestions insights) as [ns|]; simpl in *; [|done].
    by apply existsb_typeIncludes_false. }
  reflexivity.
Qed.

Lemma getConsiderations_advanced_only_witness :
  let insights :=
    {| GI.workflow_matches := None;
       GI.node_suggestions :=
         Some [ {| GI.node_type := Some "n8n-nodes-base.slack";
                   GI.node_name := "Slack" |};
                {| GI.node_type := None; GI.node_name := "Custom" |} ];
       GI.recommended_patterns := Some ["rag"];
       GI.complexity_estimate := Some "advanced" |} in
  GI.getConsiderations insights
  = [ "This is a complex workflow that may require multiple sub-workflows";
      "Consider error handling and retry logic for reliability";
      "Implement logging for debugging and monitoring" ].
Proof.
  intros insights. apply (getConsiderations_advanced_only insights).
  - reflexivity.
  - compute_done.
  - repeat constructor; simpl; intros t [= <-];
      apply includes_false; vm_compute; reflexivity.
Defined.

(** C9: the key components are a block of fixed entries followed by one
    entry per suggested node among the first three.  The fixed entries keep
    their order; "Webhook or manual trigger" is there exactly when no
    suggested node has a type containing "trigger" or "webhook", the AI,
    database and messaging entries exactly when some suggested node has a
    type containing one of their substrings. *)
Theorem identifyKeyComponents_spec (insights : GI.Insights) :
  let nodes := default [] (GI.node_suggestions insights) in
  ∃ fixed,
    GI.identifyKeyComponents insights
    = fixed ++ ((λ n, GI.node_name n +:+ " node") <$> take 3 nodes)
    ∧ fixed `sublist_of`
        [ "Webhook or manual trigger"; "AI/LLM integration";
          "Database storage"; "Messaging integration" ]
    ∧ ("Webhook or manual trigger" ∈ fixed ↔
         ¬ Exists (λ n, TypeContains n "trigger" ∨ TypeContains n "webhook") nodes)
    ∧ ("AI/LLM integration" ∈ fixed ↔
         Exists (λ n, TypeContains n "ai" ∨ TypeContains n "agent"
                      ∨ TypeContains n "openai") nodes)
    ∧ ("Database storage" ∈ fixed ↔
         Exists (λ n, TypeContains n "supabase" ∨ TypeContains n "postgres") nodes)
    ∧ ("Messaging integration" ∈ fixed ↔
         Exists (λ n, TypeContains n "telegram" ∨ TypeContains n "slack"
                      ∨ TypeContains n "email") nodes).
Proof.
  intros nodes.
  pose proof (existsb_Exists_iff
    (λ n, GI.typeIncludes n "trigger" || GI.typeIncludes n "webhook")
    (λ n, TypeContains n "trigger" ∨ TypeContains n "webhook") nodes) as HT.
  pose proof (existsb_Exists_iff
    (λ n, GI.typeIncludes n "ai" || GI.typeIncludes n "agent"
          || GI.typeIncludes n "openai")
    (λ n, TypeContains n "ai" ∨ TypeContains n "agent" ∨ TypeContains n "openai")
    nodes) as HA.
  pose proof (existsb_Exists_iff
    (λ n, GI.typeIncludes n "supabase" || GI.typeIncludes n "postgres")
    (λ n, TypeContains n "supabase" ∨ TypeContains n "postgres") nodes) as HD.
  pose proof (existsb_Exists_iff
    (λ n, GI.typeIncludes n "telegram" || GI.typeIncludes n "slack"
          || GI.typeIncludes n "email")
    (λ n, TypeContains n "telegram" ∨ TypeContains n "slack"
          ∨ TypeContains n "email") nodes) as HM.
  unfold GI.identifyKeyComponents. fold nodes. rewrite foldl_push.
  eexists. split; [reflexivity|].
  rewrite <- HT, <- HA, <- HD, <- HM;
    try (intros n; rewrite !orb_true_iff, !typeIncludes_spec; tauto).
  clear HT HA HD HM.
  destruct (existsb _ nodes), (existsb _ nodes), (existsb _ nodes),
    (existsb _ nodes); simpl;
    (split; [by repeat first [apply sublist_nil | apply sublist_skip
                             | apply sublist_cons] |]);
    rewrite ?elem_of_cons, ?elem_of_nil; intuition congruence.
Qed.

(** ** The implementation steps of the generate-workflow handler *)

Lemma someTypeIncludesAgent_strings (ns : list GW.Node) :
  Forall (λ n, ∃ s, GW.type n = VString s) ns →
  is_Some (GW.someTypeIncludesAgent ns).
Proof.
  induction 1 as [|n ns [s Hs] _ IH]; simpl; [by eexists|].
  rewrite Hs. simpl. by destruct (includes s "agent").
Qed.

Lemma consecutivelyNumbered_with_agent :
  consecutivelyNumbered
    [ "1. Create a new workflow in n8n";
      "2. Add the trigger node and configure its settings";
      "3. Configure the AI agent with appropriate model and tools";
      "4. Connect all nodes as shown in the structure";
      "5. Configure credentials for each integration";
      "6. Test the workflow with sample data";
      "7. Add error handling and logging nodes" ].
Proof. intros k s. do 7 (destruct k as [|k]; [by intros [= <-]|]). done. Qed.

Lemma consecutivelyNumbered_without_agent :
  consecutivelyNumbered
    [ "1. Create a new workflow in n8n";
      "2. Add the trigger node and configure its settings";
      "3. Connect all nodes as shown in the structure";
      "4. Configure credentials for each integration";
      "5. Test the workflow with sample data";
      "6. Add error handling and logging nodes" ].
Proof. intros k s. do 6 (destruct k as [|k]; [by intros [= <-]|]). done. Qed.

(** C10: every step list the generator returns is consecutively numbered:
    its k-th element starts with "k. ".  The list has 7 steps when the
    AI-agent configuration step is present and 6 when it is absent.  The
    generator does return a list whenever every node type is a string. *)
Theorem generateImplementationSteps_numbered
    (structure : GW.Workflow) (context : GW.Context) :
  (Forall (λ n, ∃ s, GW.type n = VString s) (GW.nodes structure) →
   is_Some (GW.generateImplementationSteps structure context))
  ∧ ∀ steps,
      GW.generateImplementationSteps structure context = Some steps →
      consecutivelyNumbered steps
      ∧ (("3. Configure the AI agent with appropriate model and tools" ∈ steps
          ∧ length steps = 7)
         ∨ (("3. Configure the AI agent with appropriate model and tools" ∉ steps)
            ∧ length steps = 6)).
Proof.
  unfold GW.generateImplementationSteps. split.
  - intros Hty. destruct (someTypeIncludesAgent_strings _ Hty) as [b ->].
    by eexists.
  - intros steps.
    destruct (GW.someTypeIncludesAgent (GW.nodes structure)) as [[|]|];
      simpl; intros [= <-].
    + split; [exact consecutivelyNumbered_with_agent|].
      left. split; [|done]. compute_done.
    + split; [exact consecutivelyNumbered_without_agent|].
      right. split; [|done]. compute_done.
Qed.

(** On the structure built for the chatbot example the generator returns the
    seven numbered steps. *)
Lemma generateImplementationSteps_numbered_witness :
  let context := {| GW.patterns := Some ["ai_agent"]; GW.suggested_nodes := None |} in
  let structure :=
    GW.generateWorkflowStructure "AI chatbot with memory"
      {| GW.trigger := None; GW.integrations := Some ["slack"] |} context in
  Forall (λ n, ∃ s, GW.type n = VString s) (GW.nodes structure)
  ∧ is_Some (GW.generateImplementationSteps structure context)
  ∧ ∀ steps,
      GW.generateImplementationSteps structure context = Some steps →
      consecutivelyNumbered steps.
Proof.
  intros context structure.
  assert (Hty : Forall (λ n, ∃ s, GW.type n = VString s) (GW.nodes structure))
    by (repeat constructor; eexists; reflexivity).
  split; [exact Hty|]. split.
  - exact (proj1 (generateImplementationSteps_numbered structure context) Hty).
  - intros steps Hsteps.
    exact (proj1 (proj2 (generateImplementationSteps_numbered structure context)
                        steps Hsteps)).
Defined.

(** ** The prompt assembler *)



(** * Further properties *)


(** ** The tables, key by key *)

Lemma triggerMap_values k v : GW.triggerMap !! k = Some v → v ∈ triggerNodeTypes.
Proof.
  unfold GW.triggerMap. intros H%elem_of_list_to_map_2.
  repeat (apply elem_of_cons in H as [[= -> ->]|H]; [compute_done|]).
  by apply elem_of_nil in H.
Qed.

Lemma integrationMap_values k v :
  GW.integrationMap !! k = Some v → v ∈ integrationNodeTypes.
Proof.
  unfold GW.integrationMap. intros H%elem_of_list_to_map_2.
  repeat (apply elem_of_cons in H as [[= -> ->]|H]; [compute_done|]).
  by apply elem_of_nil in H.
Qed.

Lemma prototype_members_not_keys k :
  k ∈ objectPrototypeMembers →
  GW.triggerMap !! k = None ∧ GW.integrationMap !! k = None.
Proof.
  unfold objectPrototypeMembers. intros H.
  repeat (apply elem_of_cons in H as [->|H]; [by vm_compute|]).
  by apply elem_of_nil in H.
Qed.

Lemma nonempty_truthy v (l : list string) :
  v ∈ l → "" ∉ l → truthy (VString v) = true.
Proof. intros Hv Hl. simpl. destruct (String.eqb_spec v ""); [by subst | done]. Qed.

Lemma getTriggerNodeType_cases (trigger : string) :
  (trigger ∈ objectPrototypeMembers →
   GW.getTriggerNodeType trigger = VInherited trigger)
  ∧ (trigger ∉ objectPrototypeMembers →
     ∃ v, GW.getTriggerNodeType trigger = VString v ∧ v ∈ triggerNodeTypes).
Proof.
  unfold GW.getTriggerNodeType, lookupProperty. split.
  - intros Hin. destruct (prototype_members_not_keys _ Hin) as [-> _].
    by rewrite bool_decide_true.
  - intros Hnotin. destruct (GW.triggerMap !! trigger) as [v|] eqn:Hk.
    + apply triggerMap_values in Hk. exists v. split; [|done].
      unfold orElse. by rewrite (nonempty_truthy v triggerNodeTypes) by (done || compute_done).
    + rewrite bool_decide_false by done. eexists. split; [reflexivity | compute_done].
Qed.

Lemma getIntegrationNodeType_cases (integration : string) :
  (toLowerCase integration ∈ objectPrototypeMembers →
   GW.getIntegrationNodeType integration = VInherited (toLowerCase integration))
  ∧ (toLowerCase integration ∉ objectPrototypeMembers →
     ∃ v, GW.getIntegrationNodeType integration = VString v
          ∧ v ∈ integrationNodeTypes).
Proof.
  unfold GW.getIntegrationNodeType, lookupProperty. split.
  - intros Hin. destruct (prototype_members_not_keys _ Hin) as [_ ->].
    by rewrite bool_decide_true.
  - intros Hnotin.
    destruct (GW.integrationMap !! toLowerCase integration) as [v|] eqn:Hk.
    + apply integrationMap_values in Hk. exists v. split; [|done].
      unfold orElse.
      by rewrite (nonempty_truthy v integrationNodeTypes) by (done || compute_done).
    + rewrite bool_decide_false by done. eexists. split; [reflexivity | compute_done].
Qed.

Lemma lowerUnit_idempotent c : lowerUnit (lowerUnit c) = lowerUnit c.
Proof. destruct c as [[] [] [] [] [] [] [] []]; reflexivity. Qed.

Lemma toLowerCase_idempotent s : toLowerCase (toLowerCase s) = toLowerCase s.
Proof. induction s as [|c s IH]; simpl; [done|]. by rewrite lowerUnit_idempotent, IH. Qed.

(** X3: lower-casing a key beforehand does not change what the integration
    resolver returns. *)
Theorem getIntegrationNodeType_toLowerCase (integration : string) :
  GW.getIntegrationNodeType (toLowerCase integration)
  = GW.getIntegrationNodeType integration.
Proof. unfold GW.getIntegrationNodeType. by rewrite toLowerCase_idempotent. Qed.

(** X4: an inferred trigger always resolves to a table entry: the webhook
    node when the patterns include "microservice", else the schedule trigger
    when they include "scheduled", else the manual trigger. *)
Theorem inferTrigger_node_type (context : GW.Context) :
  let patterns := default [] (GW.patterns context) in
  ("microservice" ∈ patterns →
   GW.getTriggerNodeType (GW.inferTrigger context) = VString "n8n-nodes-base.webhook")
  ∧ ("microservice" ∉ patterns → "scheduled" ∈ patterns →
     GW.getTriggerNodeType (GW.inferTrigger context)
     = VString "n8n-nodes-base.scheduleTrigger")
  ∧ ("microservice" ∉ patterns → "scheduled" ∉ patterns →
     GW.getTriggerNodeType (GW.inferTrigger context)
     = VString "n8n-nodes-base.manualTrigger").
Proof.
  intros patterns. unfold GW.inferTrigger, arrayIncludes. fold patterns.
  repeat case_bool_decide; split_and!; intros; done.
Qed.

(** ** The node list in closed form *)

Lemma foldl_pushLinked_nodes {A} (mk : nat → A → GW.Node) (l : list A) (b : GW.Builder) :
  let f := λ b x, GW.pushLinked b (S (GW.nodeCount b)) (mk (S (GW.nodeCount b)) x) in
  GW.b_nodes (foldl f b l)
  = GW.b_nodes b ++ imap (λ i x, mk (S (GW.nodeCount b) + i) x) l
  ∧ GW.nodeCount (foldl f b l) = GW.nodeCount b + length l.
Proof.
  intros f. revert b. induction l as [|x l IH]; intros b.
  - simpl. by rewrite app_nil_r, Nat.add_0_r.
  - cbn [foldl]. destruct (IH (f b x)) as [-> ->]. split.
    + rewrite imap_cons. subst f. cbn [GW.b_nodes GW.nodeCount GW.pushLinked].
      rewrite <- app_assoc. cbn [app]. rewrite Nat.add_0_r. do 2 f_equal.
      apply imap_ext. intros i y _. simpl. do 2 f_equal. lia.
    + subst f. simpl. lia.
Qed.

Lemma runBuilder_nodes description requirements context :
  let a := firstNodeCount description context in
  let ints := default [] (GW.integrations requirements) in
  GW.b_nodes (GW.runBuilder description requirements context)
  = triggerNode requirements context
    :: (if GW.wantsAgent description context then [agentNode 2] else [])
    ++ imap (λ i x, integrationNode (a + i) x) ints
    ++ imap (λ i x, suggestedNode (a + length ints + i) x)
            (GW.suggestedNodesOf context).
Proof.
  intros a ints. unfold GW.runBuilder. fold ints.
  pose proof (foldl_pushLinked_nodes suggestedNode) as Hs.
  pose proof (foldl_pushLinked_nodes integrationNode) as Hi.
  cbv zeta in Hs, Hi.
  change GW.addSuggested with
    (λ b x, GW.pushLinked b (S (GW.nodeCount b)) (suggestedNode (S (GW.nodeCount b)) x)).
  change GW.addIntegration with
    (λ b x, GW.pushLinked b (S (GW.nodeCount b)) (integrationNode (S (GW.nodeCount b)) x)).
  destruct (Hs (GW.suggestedNodesOf context)
              (foldl (λ b x, GW.pushLinked b (S (GW.nodeCount b))
                               (integrationNode (S (GW.nodeCount b)) x))
                 (if GW.wantsAgent description context
                  then GW.addAgent (GW.withTrigger requirements context)
                  else GW.withTrigger requirements context) ints)) as [-> _].
  destruct (Hi ints
              (if GW.wantsAgent description context
               then GW.addAgent (GW.withTrigger requirements context)
               else GW.withTrigger requirements context)) as [-> ->].
  subst a. unfold firstNodeCount.
  destruct (GW.wantsAgent description context); simpl; rewrite <- ?app_assoc; reflexivity.
Qed.

Lemma generateWorkflowStructure_nodes description requirements context :
  GW.nodes (GW.generateWorkflowStructure description requirements context)
  = GW.b_nodes (GW.runBuilder description requirements context).
Proof. reflexivity. Qed.

(** X5: the ids of the generated nodes are trigger_1, then agent_2 when the
    agent is wanted, then node_k for consecutive k, starting at 3 behind an
    agent and at 2 otherwise, one per integration and per used suggestion. *)
Theorem generateWorkflowStructure_ids description requirements context :
  let w := GW.generateWorkflowStructure description requirements context in
  let agent := GW.wantsAgent description context in
  nodeIds w
  = "trigger_1"
    :: (if agent then ["agent_2"] else [])
    ++ ((λ k, "node_" +:+ pretty k)
          <$> seq (if agent then 3 else 2)
                  (length (default [] (GW.integrations requirements))
                   + length (GW.suggestedNodesOf context))).
Proof.
  intros w agent. unfold nodeIds. subst w.
  rewrite generateWorkflowStructure_nodes, runBuilder_nodes.
  rewrite fmap_cons, !fmap_app, !fmap_imap.
  rewrite seq_app, fmap_app.
  rewrite <- !(imap_seq _ (λ k, "node_" +:+ pretty k)).
  unfold firstNodeCount. fold agent. cbn [triggerNode GW.id].
  by destruct agent.
Qed.

Lemma generateWorkflowStructure_projections description requirements context :
  let w := GW.generateWorkflowStructure description requirements context in
  let agent := GW.wantsAgent description context in
  let triggerType := GW.triggerTypeOf requirements context in
  let integrations := default [] (GW.integrations requirements) in
  GW.name <$> GW.nodes w
  = (triggerType +:+ " Trigger")
    :: (if agent then ["AI Agent"] else [])
    ++ ((λ x, x +:+ " Integration") <$> integrations)
    ++ (GW.suggested_name <$> GW.suggestedNodesOf context)
  ∧ GW.type <$> GW.nodes w
    = GW.getTriggerNodeType triggerType
      :: (if agent then [VString "@n8n/n8n-nodes-langchain.agent"] else [])
      ++ (GW.getIntegrationNodeType <$> integrations)
      ++ ((λ s, from_option VString VUndefined (GW.suggested_type s))
            <$> GW.suggestedNodesOf context).
Proof.
  intros w agent triggerType integrations. subst w.
  rewrite generateWorkflowStructure_nodes, runBuilder_nodes.
  fold agent integrations.
  rewrite !fmap_cons, !fmap_app, !fmap_imap.
  rewrite <- !imap_const. unfold compose, const. cbn [triggerNode GW.name GW.type].
  by destruct agent.
Qed.




(** ** The connection map, source by source *)

(** X9: the connection map stores, under the id of every node but the last,
    the single main-port link to the next node's id; it has no entry for the
    last node nor for any other key. *)
Theorem generateWorkflowStructure_connections description requirements context :
  let w := GW.generateWorkflowStructure description requirements context in
  (∀ i s, nodeIds w !! i = Some s →
          GW.connections w !! s = GW.linkTo <$> nodeIds w !! S i)
  ∧ (∀ s, s ∉ nodeIds w → GW.connections w !! s = None).
Proof.
  intros w.
  destruct (runBuilder_invariant description requirements context)
    as [_ _ Hnd _ Hconn].
  change (builderIds _) with (nodeIds w) in *.
  change (GW.b_connections _) with (GW.connections w) in *.
  split.
  - intros i s Hi. destruct (nodeIds w !! S i) as [t|] eqn:Ht; simpl.
    + apply Hconn. exists t. split; [by exists i | done].
    + destruct (GW.connections w !! s) as [o|] eqn:Ho; [|done].
      apply Hconn in Ho as (t & (j & Hs & Hj) & _).
      assert (j = i) as -> by exact (NoDup_lookup _ _ _ _ Hnd Hs Hi). congruence.
  - intros s Hs. destruct (GW.connections w !! s) as [o|] eqn:Ho; [|done].
    apply Hconn in Ho as (t & (j & Hj & _) & _).
    destruct Hs. by eapply list_elem_of_lookup_2.
Qed.

(** ** When the step generator answers and when it throws *)

Lemma trigger_type_never_agent k :
  GW.typeIncludes (GW.getTriggerNodeType k) "agent" ≠ Some true.
Proof.
  destruct (decide (k ∈ objectPrototypeMembers)) as [Hin|Hnotin].
  - by rewrite (proj1 (getTriggerNodeType_cases k) Hin).
  - destruct (proj2 (getTriggerNodeType_cases k) Hnotin) as (v & -> & Hv).
    unfold triggerNodeTypes in Hv.
    repeat (apply elem_of_cons in Hv as [->|Hv]; [by vm_compute|]).
    by apply elem_of_nil in Hv.
Qed.

Lemma integration_type_never_agent x :
  GW.typeIncludes (GW.getIntegrationNodeType x) "agent" ≠ Some true.
Proof.
  destruct (decide (toLowerCase x ∈ objectPrototypeMembers)) as [Hin|Hnotin].
  - by rewrite (proj1 (getIntegrationNodeType_cases x) Hin).
  - destruct (proj2 (getIntegrationNodeType_cases x) Hnotin) as (v & -> & Hv).
    unfold integrationNodeTypes in Hv.
    repeat (apply elem_of_cons in Hv as [->|Hv]; [by vm_compute|]).
    by apply elem_of_nil in Hv.
Qed.

Lemma someTypeIncludesAgent_types ns :
  GW.someTypeIncludesAgent ns = someIncludesAgent (GW.type <$> ns).
Proof. induction ns as [|n ns IH]; simpl; [done|]. by rewrite IH. Qed.

Lemma someIncludesAgent_throws types :
  Forall (λ v, GW.typeIncludes v "agent" ≠ Some true) types →
  Exists (λ v, GW.typeIncludes v "agent" = None) types →
  someIncludesAgent types = None.
Proof.
  induction 1 as [|v types Hv _ IH]; intros Hex; [by apply Exists_nil in Hex|].
  simpl. destruct (GW.typeIncludes v "agent") as [[|]|] eqn:Hty; [done | | done].
  apply IH. by apply Exists_cons in Hex as [?|?]; [congruence|].
Qed.

Lemma someIncludesAgent_false types :
  Forall (λ v, GW.typeIncludes v "agent" = Some false) types →
  someIncludesAgent types = Some false.
Proof. induction 1 as [|v types Hv _ IH]; simpl; [done|]. by rewrite Hv. Qed.

Lemma generateImplementationSteps_cases structure context :
  GW.generateImplementationSteps structure context
  = match GW.someTypeIncludesAgent (GW.nodes structure) with
    | Some true => Some stepsWithAgent
    | Some false => Some stepsWithoutAgent
    | None => None
    end.
Proof.
  unfold GW.generateImplementationSteps.
  by destruct (GW.someTypeIncludesAgent (GW.nodes structure)) as [[|]|].
Qed.

(** X10: when the agent node is inserted and the trigger kind does not name a
    member of [Object.prototype], the step generator returns the seven steps
    whatever the integrations and suggestions are: the search stops at the
    agent node, so that a later node without a string type is never
    inspected. *)
Theorem steps_with_agent_ignore_later_nodes description requirements context :
  GW.wantsAgent description context = true →
  GW.triggerTypeOf requirements context ∉ objectPrototypeMembers →
  GW.generateImplementationSteps
    (GW.generateWorkflowStructure description requirements context) context
  = Some stepsWithAgent.
Proof.
  intros Hagent Htrigger.
  rewrite generateImplementationSteps_cases, someTypeIncludesAgent_types.
  rewrite (proj2 (generateWorkflowStructure_projections description requirements context)).
  rewrite Hagent.
  destruct (proj2 (getTriggerNodeType_cases _) Htrigger) as (v & -> & _).
  simpl. by destruct (includes v "agent").
Qed.

Lemma steps_with_agent_ignore_later_nodes_witness :
  let context :=
    {| GW.patterns := None;
       GW.suggested_nodes :=
         Some [ {| GW.suggested_type := None; GW.suggested_name := "Untyped";
                   GW.suggested_parameters := None |} ] |} in
  let requirements :=
    {| GW.trigger := None; GW.integrations := Some ["constructor"] |} in
  GW.generateImplementationSteps
    (GW.generateWorkflowStructure "Chat with customers" requirements context) context
  = Some stepsWithAgent.
Proof.
  intros context requirements.
  apply (steps_with_agent_ignore_later_nodes "Chat with customers" requirements context).
  - vm_compute. reflexivity.
  - compute_done.
Defined.

(** X11: when no agent node is inserted, one used suggestion has no type and
    no used suggestion has a type containing "agent", the step generator
    throws. *)
Theorem steps_throw_on_untyped_suggestion description requirements context :
  GW.wantsAgent description context = false →
  Exists (λ s, GW.suggested_type s = None) (GW.suggestedNodesOf context) →
  Forall (λ s, ∀ t, GW.suggested_type s = Some t → ¬ Contains t "agent")
         (GW.suggestedNodesOf context) →
  GW.generateImplementationSteps
    (GW.generateWorkflowStructure description requirements context) context
  = None.
Proof.
  intros Hagent Hex Hall.
  rewrite generateImplementationSteps_cases, someTypeIncludesAgent_types.
  rewrite (proj2 (generateWorkflowStructure_projections description requirements context)).
  rewrite Hagent. cbn [app].
  rewrite someIncludesAgent_throws; [done | |].
  - apply Forall_cons. split; [apply trigger_type_never_agent|].
    apply Forall_app. split.
    + apply Forall_fmap, Forall_true. intros x. apply integration_type_never_agent.
    + apply Forall_fmap. eapply Forall_impl; [exact Hall|].
      intros s Hs. simpl in *.
      destruct (GW.suggested_type s) as [t|] eqn:Ht; simpl; [|done].
      specialize (Hs t eq_refl). apply includes_false in Hs. by rewrite Hs.
  - apply Exists_cons_tl, Exists_app. right.
    apply Exists_fmap. eapply Exists_impl; [exact Hex|].
    intros s Hs. simpl. by rewrite Hs.
Qed.

Lemma steps_throw_on_untyped_suggestion_witness :
  let context :=
    {| GW.patterns := None;
       GW.suggested_nodes :=
         Some [ {| GW.suggested_type := Some "n8n-nodes-base.slack";
                   GW.suggested_name := "Slack"; GW.suggested_parameters := None |};
                {| GW.suggested_type := None; GW.suggested_name := "Untyped";
                   GW.suggested_parameters := None |} ] |} in
  let requirements := {| GW.trigger := None; GW.integrations := None |} in
  GW.generateImplementationSteps
    (GW.generateWorkflowStructure "Notify the team" requirements context) context
  = None.
Proof.
  intros context requirements.
  apply (steps_throw_on_untyped_suggestion "Notify the team" requirements context).
  - vm_compute. reflexivity.
  - apply Exists_cons_tl, Exists_cons_hd. reflexivity.
  - repeat constructor; simpl; intros t [=]; subst t.
    apply includes_false. vm_compute. reflexivity.
Defined.

(** X12: when no agent node is inserted, neither the trigger kind nor any
    lower-cased integration names a member of [Object.prototype], and every
    used suggestion has a type that does not contain "agent", the step
    generator returns the six steps. *)
Theorem steps_without_agent description requirements context :
  GW.wantsAgent description context = false →
  GW.triggerTypeOf requirements context ∉ objectPrototypeMembers →
  Forall (λ x, toLowerCase x ∉ objectPrototypeMembers)
         (default [] (GW.integrations requirements)) →
  Forall (λ s, ∃ t, GW.suggested_type s = Some t ∧ ¬ Contains t "agent")
         (GW.suggestedNodesOf context) →
  GW.generateImplementationSteps
    (GW.generateWorkflowStructure description requirements context) context
  = Some stepsWithoutAgent.
Proof.
  intros Hagent Htrigger Hints Hsugg.
  rewrite generateImplementationSteps_cases, someTypeIncludesAgent_types.
  rewrite (proj2 (generateWorkflowStructure_projections description requirements context)).
  rewrite Hagent. cbn [app].
  rewrite someIncludesAgent_false; [done|].
  assert (Hno : ∀ v, GW.typeIncludes (VString v) "agent" ≠ Some true →
                     GW.typeIncludes (VString v) "agent" = Some false).
  { intros v. simpl. by destruct (includes v "agent"). }
  apply Forall_cons. split.
  - pose proof (trigger_type_never_agent (GW.triggerTypeOf requirements context)) as Hn.
    destruct (proj2 (getTriggerNodeType_cases _) Htrigger) as (v & Hv & _).
    rewrite Hv in *. by apply Hno.
  - apply Forall_app. split.
    + apply Forall_fmap. eapply Forall_impl; [exact Hints|].
      intros x Hx. simpl. pose proof (integration_type_never_agent x) as Hn.
      destruct (proj2 (getIntegrationNodeType_cases _) Hx) as (v & Hv & _).
      rewrite Hv in *. by apply Hno.
    + apply Forall_fmap. eapply Forall_impl; [exact Hsugg|].
      intros s (t & Ht & Hnot). simpl. rewrite Ht. simpl.
      apply includes_false in Hnot. by rewrite Hnot.
Qed.

Lemma steps_without_agent_witness :
  let context :=
    {| GW.patterns := Some ["scheduled"];
       GW.suggested_nodes :=
         Some [ {| GW.suggested_type := Some "n8n-nodes-base.slack";
                   GW.suggested_name := "Slack"; GW.suggested_parameters := None |} ] |} in
  let requirements := {| GW.trigger := None; GW.integrations := Some ["Telegram"] |} in
  GW.generateImplementationSteps
    (GW.generateWorkflowStructure "Notify the team" requirements context) context
  = Some stepsWithoutAgent.
Proof.
  intros context requirements.
  apply (steps_without_agent "Notify the team" requirements context).
  - vm_compute. reflexivity.
  - compute_done.
  - repeat constructor. compute_done.
  - repeat constructor. eexists. split; [reflexivity|].
    apply includes_false. vm_compute. reflexivity.
Defined.

(** X24: when the trigger kind names a member of [Object.prototype], the
    trigger node's type is not a string and the step generator throws,
    whatever else the request contains. *)
Theorem steps_throw_on_inherited_trigger description requirements context :
  GW.triggerTypeOf requirements context ∈ objectPrototypeMembers →
  GW.generateImplementationSteps
    (GW.generateWorkflowStructure description requirements context) context
  = None.
Proof.
  intros Htrigger.
  rewrite generateImplementationSteps_cases, someTypeIncludesAgent_types.
  rewrite (proj2 (generateWorkflowStructure_projections description requirements context)).
  by rewrite (proj1 (getTriggerNodeType_cases _) Htrigger).
Qed.

Lemma steps_throw_on_inherited_trigger_witness :
  let context := {| GW.patterns := Some ["ai_agent"]; GW.suggested_nodes := None |} in
  let requirements := {| GW.trigger := Some "valueOf"; GW.integrations := None |} in
  GW.generateImplementationSteps
    (GW.generateWorkflowStructure "AI chatbot" requirements context) context
  = None.
Proof.
  intros context requirements.
  apply (steps_throw_on_inherited_trigger "AI chatbot" requirements context).
  compute_done.
Defined.

(** ** Notes and considerations *)

(** X13: the notes always end with the error-handling note followed by the
    testing note; before them come, in this order, the microservice note
    exactly when the context patterns include "microservice" and the
    sub-workflow note exactly when the requested complexity is "advanced". *)
Theorem generateNotes_spec (requirements : GW.NoteRequirements) (context : GW.Context) :
  ∃ optional,
    GW.generateNotes requirements context
    = optional ++ [ "Remember to add proper error handling and logging";
                    "Test thoroughly with edge cases before deploying to production" ]
    ∧ optional `sublist_of`
        [ "Consider implementing as a microservice with proper error responses";
          "This workflow may benefit from being split into sub-workflows" ]
    ∧ ("Consider implementing as a microservice with proper error responses" ∈ optional
       ↔ "microservice" ∈ default [] (GW.patterns context))
    ∧ ("This workflow may benefit from being split into sub-workflows" ∈ optional
       ↔ GW.complexity requirements = Some "advanced").
Proof.
  unfold GW.generateNotes.
  assert (from_option (λ ps, arrayIncludes ps "microservice") false (GW.patterns context)
          = bool_decide ("microservice" ∈ default [] (GW.patterns context))) as ->.
  { by destruct (GW.patterns context). }
  destruct (bool_decide ("microservice" ∈ default [] (GW.patterns context))) eqn:Hm;
    [apply bool_decide_eq_true in Hm | apply bool_decide_eq_false in Hm];
    (destruct (bool_decide (GW.complexity requirements = Some "advanced")) eqn:Hc;
     [apply bool_decide_eq_true in Hc | apply bool_decide_eq_false in Hc]);
    simpl.
  - exists [ "Consider implementing as a microservice with proper error responses";
             "This workflow may benefit from being split into sub-workflows" ].
    split_and!; [done | done | |]; rewrite !elem_of_cons; intuition congruence.
  - exists [ "Consider implementing as a microservice with proper error responses" ].
    split_and!; [done | by apply sublist_skip, sublist_cons | |];
      rewrite ?elem_of_cons, ?elem_of_nil; intuition congruence.
  - exists [ "This workflow may benefit from being split into sub-workflows" ].
    split_and!; [done | by apply sublist_cons, sublist_skip | |];
      rewrite ?elem_of_cons, ?elem_of_nil; intuition congruence.
  - exists []. split_and!; [done | apply sublist_nil_l | |];
      rewrite ?elem_of_nil; intuition congruence.
Qed.

(** Settles [x ∈ l ↔ Q] for a closed list [l] of strings when the context
    decides [Q]. *)
Ltac decide_entry :=
  split;
  [ let Hx := fresh in
    intros Hx;
    first [ done
          | exfalso; apply (bool_decide_pack _) in Hx; vm_compute in Hx; exact Hx ]
  | let HQ := fresh in
    intros HQ; first [ compute_done | done | congruence ] ].

(** X14: the considerations always end with the reliability note followed by
    the logging note; before them come, in this order, the complexity note
    exactly when the estimate is "advanced", the AI-agent note exactly when
    the recommended patterns include "ai_agent", and the database note
    exactly when some suggested node has a type containing "database". *)
Theorem getConsiderations_spec (insights : GI.Insights) :
  ∃ conditional,
    GI.getConsiderations insights
    = conditional ++ [ "Consider error handling and retry logic for reliability";
                       "Implement logging for debugging and monitoring" ]
    ∧ conditional `sublist_of`
        [ "This is a complex workflow that may require multiple sub-workflows";
          "Configure AI agent with appropriate tools and memory management";
          "Set up database credentials and schema before implementation" ]
    ∧ ("This is a complex workflow that may require multiple sub-workflows" ∈ conditional
       ↔ GI.complexity_estimate insights = Some "advanced")
    ∧ ("Configure AI agent with appropriate tools and memory management" ∈ conditional
       ↔ "ai_agent" ∈ default [] (GI.recommended_patterns insights))
    ∧ ("Set up database credentials and schema before implementation" ∈ conditional
       ↔ Exists (λ n, TypeContains n "database")
                (default [] (GI.node_suggestions insights))).
Proof.
  unfold GI.getConsiderations.
  assert (from_option (λ ps, arrayIncludes ps "ai_agent") false
            (GI.recommended_patterns insights)
          = bool_decide ("ai_agent" ∈ default [] (GI.recommended_patterns insights)))
    as ->.
  { by destruct (GI.recommended_patterns insights). }
  assert (from_option (existsb (λ n, GI.typeIncludes n "database")) false
            (GI.node_suggestions insights)
          = existsb (λ n, GI.typeIncludes n "database")
              (default [] (GI.node_suggestions insights))) as ->.
  { by destruct (GI.node_suggestions insights). }
  pose proof (existsb_Exists_iff (λ n, GI.typeIncludes n "database")
                (λ n, TypeContains n "database")
                (default [] (GI.node_suggestions insights))
                (λ n, typeIncludes_spec n "database")) as Hdb.
  rewrite <- app_assoc. eexists. split; [reflexivity|].
  rewrite <- Hdb. clear Hdb.
  do 2 case_bool_decide;
    destruct (existsb _ (default [] (GI.node_suggestions insights))); simpl;
    (split; [by repeat first [apply sublist_nil | apply sublist_skip
                             | apply sublist_cons] |]);
    split_and!; decide_entry.
Qed.

(** X15: the key-components list is never empty and has at most seven
    entries. *)
Theorem identifyKeyComponents_length (insights : GI.Insights) :
  1 ≤ length (GI.identifyKeyComponents insights) ≤ 7.
Proof.
  unfold GI.identifyKeyComponents. rewrite foldl_push.
  set (nodes := default [] (GI.node_suggestions insights)).
  rewrite length_app, length_fmap, length_take.
  destruct nodes as [|n nodes]; [simpl; lia|].
  assert (Hk : 1 ≤ 3 `min` length (n :: nodes) ≤ 3) by (simpl length; lia).
  revert Hk. generalize (3 `min` length (n :: nodes)). intros k Hk.
  unfold GI.pushIf.
  repeat match goal with |- context [if ?c then _ else _] => destruct c end;
    simpl; lia.
Qed.

(** X16: an absent collection counts as an empty one: the approach, the key
    components and the considerations do not change when every absent
    collection of the insights is replaced by the empty list. *)
Theorem absent_collections_as_empty (insights : GI.Insights) :
  GI.suggestApproach (withEmptyDefaults insights) = GI.suggestApproach insights
  ∧ GI.identifyKeyComponents (withEmptyDefaults insights)
    = GI.identifyKeyComponents insights
  ∧ GI.getConsiderations (withEmptyDefaults insights) = GI.getConsiderations insights.
Proof.
  destruct insights as [[ws|] [ns|] [ps|] ce]; split_and!; reflexivity.
Qed.

(** ** More on strings *)

Lemma append_empty_r (s : string) : s +:+ "" = s.
Proof. induction s as [|c s IH]; [done|]. by rewrite append_cons, IH. Qed.

Lemma append_assoc (s t u : string) : (s +:+ t) +:+ u = s +:+ t +:+ u.
Proof. induction s as [|c s IH]; [done|]. by rewrite !append_cons, IH. Qed.

Lemma length_append (s t : string) :
  String.length (s +:+ t) = String.length s + String.length t.
Proof. induction s as [|c s IH]; [done|]. rewrite append_cons. simpl. by rewrite IH. Qed.

Lemma length_substring0 (n : nat) (s : string) :
  String.length (substring0 n s) = n `min` String.length s.
Proof.
  unfold substring0. revert s. induction n as [|n IH]; intros [|c s]; simpl; try done.
  by rewrite IH.
Qed.

Lemma substring0_prefix (n : nat) (s : string) :
  ∃ rest, s = substring0 n s +:+ rest.
Proof.
  unfold substring0. revert s. induction n as [|n IH]; intros [|c s]; simpl.
  - by exists "".
  - by exists (String c s).
  - by exists "".
  - destruct (IH s) as [rest Hrest]. exists rest. rewrite append_cons. congruence.
Qed.

Lemma join_cons (sep x : string) (l : list string) :
  l ≠ [] → join sep (x :: l) = x +:+ sep +:+ join sep l.
Proof. by destruct l. Qed.

Lemma join_snoc (sep x : string) (l : list string) :
  l ≠ [] → join sep (l ++ [x]) = join sep l +:+ sep +:+ x.
Proof.
  induction l as [|y l IH]; [done|]. intros _. destruct l as [|z l]; [done|].
  change ((y :: z :: l) ++ [x]) with (y :: (z :: l) ++ [x]).
  rewrite !join_cons by done. rewrite IH by done. by rewrite !append_assoc.
Qed.

Lemma trimEnd_append (s t : string) :
  trimEnd t ≠ "" → trimEnd (s +:+ t) = s +:+ trimEnd t.
Proof.
  intros Ht. induction s as [|c s IH]; [done|].
  rewrite !append_cons. cbn [trimEnd]. rewrite IH.
  destruct (s +:+ trimEnd t) eqn:Heq; [|done].
  destruct s; [|done]. by rewrite append_empty in Heq.
Qed.

(** [trim] takes away exactly the line feed before the first and after the
    last line of a template whose first line starts, and whose last line
    ends, with a character that is not white space. *)
Lemma trim_lines_padded (M : list string) (first final : string) :
  head M = Some first → last M = Some final →
  (∀ rest, trimStart (first +:+ rest) = first +:+ rest) →
  trimEnd (final +:+ nl) = final → final ≠ "" →
  trim (WG.lines ("" :: M ++ [""])) = WG.lines M.
Proof.
  intros Hhead Hlast Hfirst Hfinal Hne. unfold trim, WG.lines.
  assert (HM : M ≠ []) by by destruct M.
  rewrite join_cons by by destruct M.
  rewrite join_snoc by done.
  change ("" +:+ nl +:+ ?x) with (String "010" x). cbn [trimStart].
  change (isWhiteSpace "010") with true. cbv iota.
  rewrite append_empty_r.
  assert (trimStart (join nl M +:+ nl) = join nl M +:+ nl) as ->.
  { destruct M as [|x M']; [done|]. injection Hhead as ->.
    destruct M' as [|y M'].
    - apply Hfirst.
    - rewrite join_cons by done. rewrite !append_assoc. apply Hfirst. }
  apply last_Some in Hlast as [M' ->].
  destruct M' as [|x M'].
  - exact Hfinal.
  - rewrite join_snoc by done. rewrite !append_assoc.
    rewrite trimEnd_append; rewrite trimEnd_append; rewrite ?Hfinal; try done.
    all: destruct final; done.
Qed.

Lemma buildSystemPrompt_lines (Number : Type) (showRoundedPercent : Number → string)
    (c : WG.PromptContext Number) :
  WG.buildSystemPrompt Number showRoundedPercent c
  = WG.lines (promptLines Number showRoundedPercent c).
Proof.
  unfold WG.buildSystemPrompt.
  apply (trim_lines_padded (promptLines Number showRoundedPercent c)
           "# n8n Workflow Generation System Prompt"
           "Generate the complete workflow implementation(s) now.");
    try reflexivity; done.
Qed.

Lemma Contains_refl s : Contains s s.
Proof. exists "", "". by rewrite append_empty_r. Qed.

Lemma Contains_append_l s t sub : Contains s sub → Contains (s +:+ t) sub.
Proof.
  intros (pre & post & ->). exists pre, (post +:+ t). by rewrite !append_assoc.
Qed.

Lemma Contains_append_r s t sub : Contains t sub → Contains (s +:+ t) sub.
Proof.
  intros (pre & post & ->). exists (s +:+ pre), post. by rewrite !append_assoc.
Qed.

Lemma Contains_join sep l x sub :
  x ∈ l → Contains x sub → Contains (join sep l) sub.
Proof.
  intros Hx Hsub. induction l as [|y l IH]; [by apply elem_of_nil in Hx|].
  destruct l as [|z l].
  - apply list_elem_of_singleton in Hx as ->. done.
  - rewrite join_cons by done. apply elem_of_cons in Hx as [->|Hx].
    + by apply Contains_append_l.
    + by apply Contains_append_r, Contains_append_r, IH.
Qed.

(** X20: whatever the inputs, the prompt starts with the title line, a blank
    line, the background document as given and a blank line, and it ends
    with the closing instruction: [trim] removes nothing but the template's
    own first and last line feed. *)
Theorem buildSystemPrompt_frame (Number : Type) (showRoundedPercent : Number → string)
    (c : WG.PromptContext Number) :
  (∃ rest,
     WG.buildSystemPrompt Number showRoundedPercent c
     = "# n8n Workflow Generation System Prompt" +:+ nl +:+ nl
         +:+ WG.claudeMdContent _ c +:+ nl +:+ nl +:+ "## Current Task" +:+ rest)
  ∧ EndsWith (WG.buildSystemPrompt Number showRoundedPercent c)
             "Generate the complete workflow implementation(s) now.".
Proof.
  rewrite buildSystemPrompt_lines. split.
  - eexists. unfold promptLines, WG.lines. rewrite !join_cons by done.
    rewrite append_empty. reflexivity.
  - unfold EndsWith, WG.lines.
    match goal with
    | |- context [join nl ?l] =>
        change l with (removelast l ++ ["Generate the complete workflow implementation(s) now."])
    end.
    rewrite join_snoc by done. eexists. by rewrite <- append_assoc.
Qed.

(** X21: the prompt contains the description, the background document and,
    for every feature, its line of the feature checklist. *)
Theorem buildSystemPrompt_mentions (Number : Type) (showRoundedPercent : Number → string)
    (c : WG.PromptContext Number) :
  Contains (WG.buildSystemPrompt Number showRoundedPercent c) (WG.description _ c)
  ∧ Contains (WG.buildSystemPrompt Number showRoundedPercent c) (WG.claudeMdContent _ c)
  ∧ ∀ f, f ∈ WG.features _ c →
         Contains (WG.buildSystemPrompt Number showRoundedPercent c)
                  ("   - " +:+ f +:+ ": Full integration with all necessary nodes").
Proof.
  rewrite buildSystemPrompt_lines. unfold WG.lines. split_and!.
  - apply (Contains_join _ _ ("**Description**: " +:+ WG.description _ c)).
    + apply list_elem_of_lookup. by exists 8.
    + apply Contains_append_r, Contains_refl.
  - apply (Contains_join _ _ (WG.claudeMdContent _ c)).
    + apply list_elem_of_lookup. by exists 2.
    + apply Contains_refl.
  - intros f Hf.
    apply (Contains_join _ _
             (join nl ((λ f, "   - " +:+ f +:+ ": Full integration with all necessary nodes")
                         <$> WG.features _ c))).
    + apply list_elem_of_lookup. by exists 34.
    + eapply Contains_join; [|apply Contains_refl].
      apply list_elem_of_fmap. by exists f.
Qed.

Lemma length_join (sep : string) (l : list string) :
  String.length (join sep l)
  = sum_list (String.length <$> l) + String.length sep * pred (length l).
Proof.
  induction l as [|x l IH]; [simpl; lia|]. destruct l as [|y l].
  - simpl. lia.
  - rewrite join_cons by done. rewrite !length_append, IH. simpl. lia.
Qed.

Lemma buildSystemPrompt_length (Number : Type) (showRoundedPercent : Number → string)
    (c : WG.PromptContext Number) :
  1000 ≤ String.length (WG.buildSystemPrompt Number showRoundedPercent c).
Proof.
  rewrite buildSystemPrompt_lines. unfold WG.lines. rewrite length_join.
  unfold promptLines.
  cbn [sum_list sum_list_with fmap list_fmap length pred nl String.length].
  rewrite !length_append. cbn [String.length]. unfold id. lia.
Qed.

(** X22: every prompt is at least 1000 code units long, so the prompt shown
    in the plan is always its first 1000 code units followed by the
    truncation marker, 1027 code units in all. *)
Theorem displayPrompt_length (Number : Type) (showRoundedPercent : Number → string)
    (c : WG.PromptContext Number) :
  String.length (WG.displayPrompt (WG.buildSystemPrompt Number showRoundedPercent c))
  = 1027
  ∧ ∃ rest,
      WG.buildSystemPrompt Number showRoundedPercent c
      = substring0 1000 (WG.buildSystemPrompt Number showRoundedPercent c) +:+ rest
      ∧ WG.displayPrompt (WG.buildSystemPrompt Number showRoundedPercent c)
        = substring0 1000 (WG.buildSystemPrompt Number showRoundedPercent c)
            +:+ "... [truncated for display]"
      ∧ String.length (substring0 1000 (WG.buildSystemPrompt Number showRoundedPercent c))
        = 1000.
Proof.
  pose proof (buildSystemPrompt_length Number showRoundedPercent c) as Hlen.
  unfold WG.displayPrompt. rewrite length_append, length_substring0.
  split.
  - change (String.length "... [truncated for display]") with 27. lia.
  - destruct (substring0_prefix 1000 (WG.buildSystemPrompt Number showRoundedPercent c))
      as [rest Hrest].
    exists rest. split_and!; [done | done | lia].
Qed.

(** X23: the prompt does not depend on the workflows behind the third, on the
    microservice examples unless the output format is "microservices", nor
    on the task-manager examples unless the task manager is requested. *)
Theorem buildSystemPrompt_ignores
    (Number : Type) (showRoundedPercent : Number → string)
    (c1 c2 : WG.PromptContext Number) :
  WG.description _ c1 = WG.description _ c2 →
  WG.features _ c1 = WG.features _ c2 →
  WG.relevantNodes _ c1 = WG.relevantNodes _ c2 →
  WG.useTaskManager _ c1 = WG.useTaskManager _ c2 →
  WG.outputFormat _ c1 = WG.outputFormat _ c2 →
  WG.complexity _ c1 = WG.complexity _ c2 →
  WG.claudeMdContent _ c1 = WG.claudeMdContent _ c2 →
  take 3 (WG.relevantWorkflows _ c1) = take 3 (WG.relevantWorkflows _ c2) →
  (WG.outputFormat _ c1 = Some "microservices" →
   WG.demoExamples _ c1 = WG.demoExamples _ c2) →
  (WG.useTaskManager _ c1 = Some true →
   WG.taskManagerExamples _ c1 = WG.taskManagerExamples _ c2) →
  WG.buildSystemPrompt Number showRoundedPercent c1
  = WG.buildSystemPrompt Number showRoundedPercent c2.
Proof.
  intros Hd Hf Hn Hu Ho Hc Hm Hw He Ht.
  unfold WG.buildSystemPrompt, WG.isMicroservices, WG.wantsTaskManager.
  rewrite <- Hd, <- Hf, <- Hn, <- Hu, <- Ho, <- Hc, <- Hm, <- Hw.
  case_bool_decide as Hmicro.
  - rewrite <- (He Hmicro).
    destruct (WG.useTaskManager _ c1) as [[|]|]; simpl; [by rewrite <- Ht | done | done].
  - destruct (WG.useTaskManager _ c1) as [[|]|]; simpl; [by rewrite <- Ht | done | done].
Qed.

Lemma buildSystemPrompt_ignores_witness :
  let workflow (name : string) : WG.RelevantWorkflow nat :=
    {| WG.rw_name := name; WG.rw_similarity := 50; WG.rw_description := "..." |} in
  let c (workflows : list (WG.RelevantWorkflow nat)) (examples : list WG.Example)
      : WG.PromptContext nat :=
    {| WG.description := "Notify the team about new orders";
       WG.features := ["slack"];
       WG.relevantWorkflows := workflows;
       WG.relevantNodes := [];
       WG.demoExamples := examples;
       WG.taskManagerExamples := examples;
       WG.useTaskManager := Some false;
       WG.outputFormat := Some "single";
       WG.complexity := Some "simple";
       WG.claudeMdContent := "Project notes" |} in
  WG.buildSystemPrompt nat pretty
    (c [workflow "a"; workflow "b"; workflow "c"; workflow "d"]
       [ {| WG.example_name := "orchestrator.json" |} ])
  = WG.buildSystemPrompt nat pretty (c [workflow "a"; workflow "b"; workflow "c"] []).
Proof.
  intros workflow c.
  apply (buildSystemPrompt_ignores nat pretty); try reflexivity; intros [=].
Defined.

(** ** The steps of the complete-workflow generator *)

(** X17: the complete-workflow generator returns four fixed steps plus one per
    feature, and two more when the format is "microservices" and the task
    manager is requested. *)
Theorem generateImplementationSteps_length features outputFormat useTaskManager :
  length (WG.generateImplementationSteps features outputFormat useTaskManager)
  = 4 + length features
    + (if String.eqb outputFormat "microservices" && useTaskManager then 2 else 0).
Proof.
  destruct (String.eqb_spec outputFormat "microservices") as [->|Hne].
  - rewrite generateImplementationSteps_microservices.
    rewrite !length_app, length_fmap. destruct useTaskManager; simpl; lia.
  - rewrite generateImplementationSteps_single by done.
    rewrite !length_app, length_fmap. simpl. lia.
Qed.

(** X18: every output format other than the exact string "microservices"
    yields the steps of the single mode, and the task-manager flag has no
    effect there. *)
Theorem generateImplementationSteps_other_format
    features outputFormat useTaskManager :
  outputFormat ≠ "microservices" →
  WG.generateImplementationSteps features outputFormat useTaskManager
  = WG.generateImplementationSteps features "single" false.
Proof.
  intros Hne. by rewrite !generateImplementationSteps_single.
Qed.

Lemma generateImplementationSteps_other_format_witness :
  WG.generateImplementationSteps ["slack"] "Microservices" true
  = WG.generateImplementationSteps ["slack"] "single" false.
Proof.
  apply (generateImplementationSteps_other_format ["slack"] "Microservices" true).
  intros [=].
Defined.

(** X19: the step of the i-th feature sits at index 2 + i in microservices
    mode and at index 1 + i otherwise, and names that feature. *)
Theorem generateImplementationSteps_feature_step
    features outputFormat useTaskManager (i : nat) (f : string) :
  features !! i = Some f →
  WG.generateImplementationSteps features outputFormat useTaskManager
    !! (if String.eqb outputFormat "microservices" then 2 + i else 1 + i)
  = Some (if String.eqb outputFormat "microservices"
          then "Implement " +:+ f +:+ " microservice with webhook trigger and response"
          else "Add " +:+ f +:+ " integration nodes and configuration").
Proof.
  intros Hi. destruct (String.eqb_spec outputFormat "microservices") as [->|Hne].
  - rewrite generateImplementationSteps_microservices.
    rewrite lookup_app_r by (simpl; lia). simpl length.
    replace (2 + i - 2) with i by lia.
    rewrite lookup_app_l by (rewrite length_fmap; by eapply lookup_lt_Some).
    by rewrite list_lookup_fmap, Hi.
  - rewrite generateImplementationSteps_single by done.
    rewrite lookup_app_r by (simpl; lia). simpl length.
    replace (1 + i - 1) with i by lia.
    rewrite lookup_app_l by (rewrite length_fmap; by eapply lookup_lt_Some).
    by rewrite list_lookup_fmap, Hi.
Qed.

Lemma generateImplementationSteps_feature_step_witness :
  WG.generateImplementationSteps ["slack"; "telegram"] "microservices" false !! 3
  = Some "Implement telegram microservice with webhook trigger and response".
Proof.
  apply (generateImplementationSteps_feature_step
           ["slack"; "telegram"] "microservices" false 1 "telegram").
  reflexivity.
Defined.

(** ** The resolvers and the node list, as statements of their own *)



(** X7: behind the trigger and the optional agent come the integrations in
    input order, then the used suggestions in input order; an integration
    node is named after its key and typed by the integration resolver, a
    suggested node keeps its own name and type. *)
Theorem generateWorkflowStructure_names_types description requirements context :
  let w := GW.generateWorkflowStructure description requirements context in
  let agent := GW.wantsAgent description context in
  let triggerType := GW.triggerTypeOf requirements context in
  let integrations := default [] (GW.integrations requirements) in
  GW.name <$> GW.nodes w
  = (triggerType +:+ " Trigger")
    :: (if agent then ["AI Agent"] else [])
    ++ ((λ x, x +:+ " Integration") <$> integrations)
    ++ (GW.suggested_name <$> GW.suggestedNodesOf context)
  ∧ GW.type <$> GW.nodes w
    = GW.getTriggerNodeType triggerType
      :: (if agent then [VString "@n8n/n8n-nodes-langchain.agent"] else [])
      ++ (GW.getIntegrationNodeType <$> integrations)
      ++ ((λ s, from_option VString VUndefined (GW.suggested_type s))
            <$> GW.suggestedNodesOf context).
Proof.
  exact (generateWorkflowStructure_projections description requirements context).
Qed.

(** ** Instances *)



Lemma inferTrigger_node_type_witness :
  let context :=
    {| GW.patterns := Some ["scheduled"; "microservice"]; GW.suggested_nodes := None |} in
  GW.getTriggerNodeType (GW.inferTrigger context) = VString "n8n-nodes-base.webhook".
Proof.
  intros context. apply (proj1 (inferTrigger_node_type context)). compute_done.
Defined.

Lemma generateWorkflowStructure_connections_witness :
  let w :=
    GW.generateWorkflowStructure "AI chatbot with memory"
      {| GW.trigger := None; GW.integrations := Some ["slack"] |}
      {| GW.patterns := Some ["ai_agent"]; GW.suggested_nodes := None |} in
  GW.connections w !! "agent_2" = Some (GW.linkTo "node_3")
  ∧ GW.connections w !! "node_3" = None
  ∧ GW.connections w !! "node_4" = None.
Proof.
  intros w.
  destruct (generateWorkflowStructure_connections "AI chatbot with memory"
              {| GW.trigger := None; GW.integrations := Some ["slack"] |}
              {| GW.patterns := Some ["ai_agent"]; GW.suggested_nodes := None |})
    as [Hin Hout].
  split_and!.
  - exact (Hin 1 "agent_2" eq_refl).
  - exact (Hin 2 "node_3" eq_refl).
  - apply Hout. compute_done.
Defined.

Lemma buildSystemPrompt_mentions_witness :
  let c : WG.PromptContext nat :=
    {| WG.description := "Notify the team about new orders";
       WG.features := ["slack"; "telegram"];
       WG.relevantWorkflows := [];
       WG.relevantNodes := [];
       WG.demoExamples := [];
       WG.taskManagerExamples := [];
       WG.useTaskManager := None;
       WG.outputFormat := None;
       WG.complexity := None;
       WG.claudeMdContent := "Project notes" |} in
  Contains (WG.buildSystemPrompt nat pretty c)
           "   - telegram: Full integration with all necessary nodes".
Proof.
  intros c.
  apply (proj2 (proj2 (buildSystemPrompt_mentions nat pretty c)) "telegram").
  compute_done.
Defined.

